(** * prostor backend: file namespace, storage service and file controller

    A shallow embedding of
      - [packages/backend/src/services/file.service.ts]   (module [FileService]),
      - [packages/backend/src/services/storage.service.ts] (module [StorageService]),
      - the file controller ([FileController]) that glues the two together,
    followed by the properties of the storage specification that were checked
    against them.

    Conventions.
      - The module-level tables [files], [folders], [shareLinks] and
        [userStorageUsage], the local disk and the object-storage bucket form
        one explicit [World]; every method is a state transformer over it.
      - A rejected promise / thrown [Error] is the outcome [Throw msg]; the
        world built up to the throw is kept, exactly as a mutation made before
        a JavaScript exception stays visible afterwards.
      - [uuidv4()] and [new Date()] are inputs of the methods that call them.
      - JavaScript numbers that hold byte counts and millisecond timestamps are
        integers ([Z]); strings are [string]; [T | null] is [option T];
        an optional field [f?: T] is an [option] around [T]. *)

From Stdlib Require Import Ascii.
From stdpp Require Import base strings list gmap sorting.

Open Scope Z_scope.

(* ------------------------------------------------------------------------- *)
(** ** Outcomes and the state-and-exception monad *)

Inductive Outcome (A : Type) : Type :=
  | Ok (a : A)
  | Throw (msg : string)
  | OutOfFuel.
Arguments Ok {A} a.
Arguments Throw {A} msg.
Arguments OutOfFuel {A}.

(** A JavaScript [Date]: a millisecond timestamp, or the "Invalid Date" whose
    time value is NaN (what [new Date(s)] yields on an unparsable [s]). *)
Inductive Date : Type :=
  | DateMs (t : Z)
  | InvalidDate.

(** [a > b] on two dates: both are converted to numbers, and every comparison
    with NaN is false. *)
Definition date_gt (a b : Date) : bool :=
  match a, b with
  | DateMs x, DateMs y => bool_decide (y < x)
  | _, _ => false
  end.

Definition Buffer : Type := list Byte.byte.

(** [buffer.length] *)
Definition buffer_length (b : Buffer) : Z := Z.of_nat (length b).

(* ------------------------------------------------------------------------- *)
(** ** Data model (the interfaces of file.service.ts) *)

Module File.
Record t : Type := mk {
  id : string;
  userId : string;
  name : string;
  size : Z;
  mimeType : string;
  key : string;
  folderId : option string;
  createdAt : Date;
  updatedAt : Date
}.
End File.

Module Folder.
Record t : Type := mk {
  id : string;
  userId : string;
  name : string;
  parentId : option string;
  createdAt : Date;
  updatedAt : Date
}.
End Folder.

Module ShareLink.
Record t : Type := mk {
  id : string;
  fileId : string;
  userId : string;
  token : string;
  expiresAt : option Date;
  isPublic : bool;
  allowedEmails : list string;
  createdAt : Date
}.
End ShareLink.

(** [config.storageType] *)
Inductive StorageType : Type := local | s3 | r2.

(** An absolute, normalised POSIX path, as its list of segments. *)
Definition Path : Type := list string.

(** The part of the configuration and of the process environment the storage
    service reads: [config.storageType] and [process.cwd()]. *)
Record Config : Type := mkConfig {
  storageType : StorageType;
  cwd : Path
}.

(** Everything the services read and write.  [disk] is the local filesystem
    (regular files only, by resolved path; directories are implicit),
    [bucket] the object-storage bucket, [backendUp] tells whether storage I/O
    currently succeeds. *)
Record World : Type := mkWorld {
  files : list File.t;
  folders : list Folder.t;
  shareLinks : list ShareLink.t;
  userStorageUsage : gmap string Z;
  disk : gmap Path Buffer;
  bucket : gmap string Buffer;
  backendUp : bool
}.

Definition set_files (l : list File.t) (w : World) : World :=
  mkWorld l (folders w) (shareLinks w) (userStorageUsage w) (disk w) (bucket w) (backendUp w).
Definition set_folders (l : list Folder.t) (w : World) : World :=
  mkWorld (files w) l (shareLinks w) (userStorageUsage w) (disk w) (bucket w) (backendUp w).
Definition set_shareLinks (l : list ShareLink.t) (w : World) : World :=
  mkWorld (files w) (folders w) l (userStorageUsage w) (disk w) (bucket w) (backendUp w).
Definition set_userStorageUsage (m : gmap string Z) (w : World) : World :=
  mkWorld (files w) (folders w) (shareLinks w) m (disk w) (bucket w) (backendUp w).
Definition set_disk (d : gmap Path Buffer) (w : World) : World :=
  mkWorld (files w) (folders w) (shareLinks w) (userStorageUsage w) d (bucket w) (backendUp w).
Definition set_bucket (b : gmap string Buffer) (w : World) : World :=
  mkWorld (files w) (folders w) (shareLinks w) (userStorageUsage w) (disk w) b (backendUp w).

Definition M (A : Type) : Type := World → World * Outcome A.

Definition ret {A} (a : A) : M A := λ w, (w, Ok a).
Definition throw {A} (msg : string) : M A := λ w, (w, Throw msg).
Definition out_of_fuel {A} : M A := λ w, (w, OutOfFuel).
Definition bind {A B} (m : M A) (k : A → M B) : M B :=
  λ w, match m w with
       | (w', Ok a) => k a w'
       | (w', Throw e) => (w', Throw e)
       | (w', OutOfFuel) => (w', OutOfFuel)
       end.
Definition gets {A} (f : World → A) : M A := λ w, (w, Ok (f w)).
Definition modify (f : World → World) : M unit := λ w, (f w, Ok tt).

(** [try { m } catch (error) { h }] *)
Definition try_catch {A} (m : M A) (h : string → M A) : M A :=
  λ w, match m w with
       | (w', Throw e) => h e w'
       | r => r
       end.

Notation "x ⟵ m ;; k" := (bind m (λ x, k))
  (at level 100, m at next level, right associativity, only parsing).
Notation "m ;;; k" := (bind m (λ _, k))
  (at level 100, right associativity, only parsing).

(* ------------------------------------------------------------------------- *)
(** ** Array idioms used by the services *)

(** [const i = l.findIndex(p)] together with [l[i]]; [l.findIndex(p)] and
    [l.find(p)] on their own. *)
Definition findWithIndex {A} (p : A → bool) (l : list A) : option (nat * A) :=
  list_find (λ x, p x = true) l.
Definition findIndex {A} (p : A → bool) (l : list A) : option nat :=
  fst <$> list_find (λ x, p x = true) l.
Definition find {A} (p : A → bool) (l : list A) : option A :=
  snd <$> list_find (λ x, p x = true) l.

(** [l.map((x, index) => (p(x) ? index : -1)).filter(index => index !== -1)] *)
Definition matchingIndices {A} (p : A → bool) (l : list A) : list Z :=
  filter (λ index, index ≠ -1)
         (imap (λ index x, if p x then Z.of_nat index else -1) l).

(** [.sort((a, b) => b - a)]: descending order. *)
Definition descending (a b : Z) : Prop := b ≤ a.
#[global] Instance descending_dec : RelDecision descending.
Proof. intros a b. unfold descending. apply _. Defined.

Definition sortDescending (l : list Z) : list Z := merge_sort descending l.

(** [for (const index of indices) { l.splice(index, 1); }] *)
Definition spliceAll {A} (l : list A) (indices : list Z) : list A :=
  foldl (λ acc index, delete (Z.to_nat index) acc) l indices.

(** The indices, from [k] on, of the elements of [l] that satisfy [p]
    (what [matchingIndices] computes, by plain recursion). *)
Fixpoint indicesFrom {A} (p : A → bool) (k : nat) (l : list A) : list Z :=
  match l with
  | [] => []
  | x :: l' =>
    if p x then Z.of_nat k :: indicesFrom p (S k) l' else indicesFrom p (S k) l'
  end.

(** The whole removal idiom of [deleteFile] and [deleteFolder]. *)
Definition removeMatching {A} (p : A → bool) (l : list A) : list A :=
  spliceAll l (sortDescending (matchingIndices p l)).

(** JavaScript truthiness of a string: only the empty string is falsy. *)
Definition truthy (s : string) : bool := negb (bool_decide (s = "")).

(** Truthiness of an optional string ([undefined], [null] and [''] are falsy). *)
Definition truthy_opt (o : option string) : bool :=
  match o with Some s => truthy s | None => false end.

(* ------------------------------------------------------------------------- *)
(** ** file.service.ts *)

Module FileService.

(** Argument of [createFile]. *)
Record FileData : Type := mkFileData {
  fd_userId : string;
  fd_name : string;
  fd_size : Z;
  fd_mimeType : string;
  fd_key : string;
  fd_folderId : option string
}.

(** Argument of [updateFile]: [{ name?: string; folderId?: string | null }]. *)
Record FileUpdate : Type := mkFileUpdate {
  fu_name : option string;
  fu_folderId : option (option string)
}.

(** Argument of [createFolder]. *)
Record FolderData : Type := mkFolderData {
  od_userId : string;
  od_name : string;
  od_parentId : option string
}.

(** Argument of [updateFolder]: [{ name?: string; parentId?: string | null }]. *)
Record FolderUpdate : Type := mkFolderUpdate {
  ou_name : option string;
  ou_parentId : option (option string)
}.

(** Argument of [createShareLink]. *)
Record ShareData : Type := mkShareData {
  sd_fileId : string;
  sd_userId : string;
  sd_expiresAt : option Date;
  sd_isPublic : bool;
  sd_allowedEmails : list string
}.

(** [uuid] is the value of [uuidv4()], [now] the reading of [new Date()]. *)
Definition createFile (fileData : FileData) (uuid : string) (now : Z) : M File.t :=
  let newFile :=
    File.mk uuid (fd_userId fileData) (fd_name fileData) (fd_size fileData)
            (fd_mimeType fileData) (fd_key fileData) (fd_folderId fileData)
            (DateMs now) (DateMs now) in
  modify (λ w, set_files (files w ++ [newFile]) w) ;;;
  ret newFile.

Definition getFileById (fileId userId : string) : M (option File.t) :=
  gets (λ w, find (λ f, bool_decide (File.id f = fileId)
                        && bool_decide (File.userId f = userId))
                  (files w)).

Definition updateFile (fileId : string) (fileData : FileUpdate) (now : Z) : M File.t :=
  found ⟵ gets (λ w, findWithIndex (λ f, bool_decide (File.id f = fileId)) (files w)) ;;
  match found with
  | None => throw "File not found"
  | Some (fileIndex, file) =>
      let name' :=
        match fu_name fileData with
        | Some n => if truthy n then n else File.name file
        | None => File.name file
        end in
      let folderId' :=
        match fu_folderId fileData with
        | Some v => v
        | None => File.folderId file
        end in
      let updatedFile :=
        File.mk (File.id file) (File.userId file) name' (File.size file)
                (File.mimeType file) (File.key file) folderId'
                (File.createdAt file) (DateMs now) in
      modify (λ w, set_files (<[fileIndex := updatedFile]> (files w)) w) ;;;
      ret updatedFile
  end.

Definition deleteFile (fileId : string) : M unit :=
  fileIndex ⟵ gets (λ w, findIndex (λ f, bool_decide (File.id f = fileId)) (files w)) ;;
  match fileIndex with
  | None => throw "File not found"
  | Some fileIndex =>
    modify (λ w, set_files (delete fileIndex (files w)) w) ;;;
    modify (λ w, set_shareLinks
                   (removeMatching (λ link, bool_decide (ShareLink.fileId link = fileId))
                                   (shareLinks w)) w)
  end.

Definition createFolder (folderData : FolderData) (uuid : string) (now : Z) : M Folder.t :=
  let newFolder :=
    Folder.mk uuid (od_userId folderData) (od_name folderData) (od_parentId folderData)
              (DateMs now) (DateMs now) in
  modify (λ w, set_folders (folders w ++ [newFolder]) w) ;;;
  ret newFolder.

Definition getFolderById (folderId userId : string) : M (option Folder.t) :=
  gets (λ w, find (λ f, bool_decide (Folder.id f = folderId)
                        && bool_decide (Folder.userId f = userId))
                  (folders w)).

Definition listFolders (userId : string) (parentId : option string) : M (list Folder.t) :=
  gets (λ w,
    let filteredFolders := filter (λ f, Folder.userId f = userId) (folders w) in
    filter (λ f, Folder.parentId f = parentId) filteredFolders).

Definition updateFolder (folderId : string) (folderData : FolderUpdate) (now : Z) : M Folder.t :=
  found ⟵ gets (λ w, findWithIndex (λ f, bool_decide (Folder.id f = folderId)) (folders w)) ;;
  match found with
  | None => throw "Folder not found"
  | Some (folderIndex, folder) =>
      let name' :=
        match ou_name folderData with
        | Some n => if truthy n then n else Folder.name folder
        | None => Folder.name folder
        end in
      let parentId' :=
        match ou_parentId folderData with
        | Some v => v
        | None => Folder.parentId folder
        end in
      let updatedFolder :=
        Folder.mk (Folder.id folder) (Folder.userId folder) name' parentId'
                  (Folder.createdAt folder) (DateMs now) in
      modify (λ w, set_folders (<[folderIndex := updatedFolder]> (folders w)) w) ;;;
      ret updatedFolder
  end.

(** The recursive helper reads the [folders] table only.  The recursion of
    the source is not bounded by anything (it does not return on a cyclic
    table), so the embedding carries [fuel], the permitted call depth, and
    yields [None] when it is used up. *)
Fixpoint getAllSubfolderIds (fuel : nat) (allFolders : list Folder.t) (folderId : string)
  : option (list string) :=
  match fuel with
  | O => None
  | S fuel' =>
    let directSubfolders := filter (λ f, Folder.parentId f = Some folderId) allFolders in
    foldl (λ acc subfolder,
             subfolderIds ← acc;
             childIds ← getAllSubfolderIds fuel' allFolders (Folder.id subfolder);
             Some (subfolderIds ++ [Folder.id subfolder] ++ childIds))
          (Some []) directSubfolders
  end.

Definition deleteFolder (fuel : nat) (folderId userId : string) : M unit :=
  folderIndex ⟵ gets (λ w, findIndex (λ f, bool_decide (Folder.id f = folderId)
                                             && bool_decide (Folder.userId f = userId))
                                      (folders w)) ;;
  match folderIndex with
  | None => throw "Folder not found"
  | Some _ =>
    subfolderIds ⟵ gets (λ w, getAllSubfolderIds fuel (folders w) folderId) ;;
    match subfolderIds with
    | None => out_of_fuel
    | Some subfolderIds =>
      let allFolderIds := subfolderIds ++ [folderId] in
      modify (λ w, set_files
                     (removeMatching
                        (λ file, bool_decide (default "" (File.folderId file) ∈ allFolderIds))
                        (files w)) w) ;;;
      modify (λ w, set_folders
                     (removeMatching
                        (λ folder, bool_decide (Folder.id folder ∈ allFolderIds))
                        (folders w)) w)
    end
  end.

(** [uuid] and [tokenUuid] are the two [uuidv4()] values, in call order.
    [shareData.expiresAt || null]: a [Date] object is always truthy. *)
Definition createShareLink (shareData : ShareData) (uuid tokenUuid : string) (now : Z)
  : M ShareLink.t :=
  let newShareLink :=
    ShareLink.mk uuid (sd_fileId shareData) (sd_userId shareData) tokenUuid
                 (sd_expiresAt shareData) (sd_isPublic shareData)
                 (sd_allowedEmails shareData) (DateMs now) in
  modify (λ w, set_shareLinks (shareLinks w ++ [newShareLink]) w) ;;;
  ret newShareLink.

Definition getShareLinkByToken (token : string) (now : Z) : M (option ShareLink.t) :=
  shareLink ⟵ gets (λ w, find (λ s, bool_decide (ShareLink.token s = token)) (shareLinks w)) ;;
  match shareLink with
  | None => ret None
  | Some shareLink =>
    match ShareLink.expiresAt shareLink with
    | Some expiresAt =>
      if date_gt (DateMs now) expiresAt then ret None else ret (Some shareLink)
    | None => ret (Some shareLink)
    end
  end.

Definition deleteShareLink (shareLinkId userId : string) : M unit :=
  shareLinkIndex ⟵ gets (λ w, findIndex (λ s, bool_decide (ShareLink.id s = shareLinkId)
                                                && bool_decide (ShareLink.userId s = userId))
                                         (shareLinks w)) ;;
  match shareLinkIndex with
  | None => throw "Share link not found"
  | Some shareLinkIndex =>
    modify (λ w, set_shareLinks (delete shareLinkIndex (shareLinks w)) w)
  end.

End FileService.

(* ------------------------------------------------------------------------- *)
(** ** Paths and the storage media *)

(** [s.split(sep)] for a one-character separator. *)
Fixpoint split_go (sep : ascii) (cur : string) (s : string) : list string :=
  match s with
  | EmptyString => [cur]
  | String c s' =>
    if Ascii.eqb c sep then cur :: split_go sep "" s'
    else split_go sep (cur +:+ String c "") s'
  end.
Definition split (sep : ascii) (s : string) : list string := split_go sep "" s.

(** One step of POSIX path normalisation on an absolute path: empty and [.]
    segments vanish, [..] drops the last segment (and is itself dropped at the
    filesystem root), any other segment is appended. *)
Definition pushSegment (acc : Path) (seg : string) : Path :=
  if bool_decide (seg = "" ∨ seg = ".") then acc
  else if bool_decide (seg = "..") then removelast acc
  else acc ++ [seg].

(** [path.join(base, rel)] for an absolute normalised [base]: the segments of
    [rel] are applied to [base] one after the other.  (A trailing separator of
    the result is not represented.) *)
Definition path_join (base : Path) (rel : string) : Path :=
  foldl pushSegment base (split "/"%char rel).

(** [path.dirname] *)
Definition path_dirname (p : Path) : Path := removelast p.

(** The [fs] calls of the service.  Every call fails while the medium is
    down; [readFile], [unlink] and [stat] fail with ENOENT on a missing file. *)
Definition fs_writeFile (p : Path) (b : Buffer) : M unit :=
  λ w, if backendUp w then (set_disk (<[p := b]> (disk w)) w, Ok tt)
       else (w, Throw "EIO").
Definition fs_readFile (p : Path) : M Buffer :=
  λ w, if backendUp w then
         match disk w !! p with
         | Some b => (w, Ok b)
         | None => (w, Throw "ENOENT")
         end
       else (w, Throw "EIO").
Definition fs_unlink (p : Path) : M unit :=
  λ w, if backendUp w then
         match disk w !! p with
         | Some _ => (set_disk (delete p (disk w)) w, Ok tt)
         | None => (w, Throw "ENOENT")
         end
       else (w, Throw "EIO").
Definition fs_stat_size (p : Path) : M Z :=
  λ w, if backendUp w then
         match disk w !! p with
         | Some b => (w, Ok (buffer_length b))
         | None => (w, Throw "ENOENT")
         end
       else (w, Throw "EIO").

(** [s3Client.send(new PutObjectCommand ...)], [GetObjectCommand],
    [DeleteObjectCommand].  Deleting a missing object succeeds. *)
Definition s3_put (k : string) (b : Buffer) : M unit :=
  λ w, if backendUp w then (set_bucket (<[k := b]> (bucket w)) w, Ok tt)
       else (w, Throw "ServiceUnavailable").
Definition s3_get (k : string) : M Buffer :=
  λ w, if backendUp w then
         match bucket w !! k with
         | Some b => (w, Ok b)
         | None => (w, Throw "NoSuchKey")
         end
       else (w, Throw "ServiceUnavailable").
Definition s3_delete (k : string) : M unit :=
  λ w, if backendUp w then (set_bucket (delete k (bucket w)) w, Ok tt)
       else (w, Throw "ServiceUnavailable").

(* ------------------------------------------------------------------------- *)
(** ** storage.service.ts *)

Module StorageService.

Record StorageOptions : Type := mkStorageOptions {
  userId : string;
  filename : string;
  contentType : string
}.

(** [usedPercentage] is the floating-point quotient of the two fields kept
    here and is not represented. *)
Record StorageUsage : Type := mkStorageUsage {
  usedBytes : Z;
  totalBytes : Z
}.

Section WithConfig.
Variable config : Config.

(** [config.storageType === 's3' || config.storageType === 'r2'] *)
Definition isObjectStorage : bool :=
  match storageType config with
  | s3 | r2 => true
  | local => false
  end.

(** [this.s3Client] is set by the constructor exactly in that case. *)
Definition s3Client : bool := isObjectStorage.

(** [path.join(process.cwd(), 'uploads')] *)
Definition localStoragePath : Path := path_join (cwd config) "uploads".

Definition updateUserStorageUsage (userId : string) (sizeChange : Z) : M unit :=
  modify (λ w,
    let u0 := userStorageUsage w in
    let u1 := if bool_decide (default 0 (u0 !! userId) = 0)
              then <[userId := 0]> u0 else u0 in
    let u2 := <[userId := default 0 (u1 !! userId) + sizeChange]> u1 in
    let u3 := if bool_decide (default 0 (u2 !! userId) < 0)
              then <[userId := 0]> u2 else u2 in
    set_userStorageUsage u3 w).

Definition getUserStorageUsage (userId : string) : M StorageUsage :=
  gets (λ w,
    let usedBytes := default 0 (userStorageUsage w !! userId) in
    let totalBytes := 10 * 1024 * 1024 * 1024 in
    mkStorageUsage usedBytes totalBytes).

Definition getFileSize (fileKey : string) : M Z :=
  match storageType config with
  | local =>
    let filePath := path_join localStoragePath fileKey in
    try_catch (fs_stat_size filePath) (λ _, ret 0)
  | _ => ret 0
  end.

Definition uploadToS3 (fileBuffer : Buffer) (fileKey contentType : string) : M string :=
  if negb s3Client then throw "S3 client not initialized"
  else s3_put fileKey fileBuffer ;;; ret fileKey.

Definition getFromS3 (fileKey : string) : M Buffer :=
  if negb s3Client then throw "S3 client not initialized"
  else s3_get fileKey.

Definition deleteFromS3 (fileKey : string) : M unit :=
  if negb s3Client then throw "S3 client not initialized"
  else s3_delete fileKey.

(** Directories are implicit in [disk], so the [existsSync]/[mkdirSync] pair
    on [path.dirname(filePath)] leaves the world as it is. *)
Definition uploadToLocalStorage (fileBuffer : Buffer) (fileKey : string) : M string :=
  let filePath := path_join localStoragePath fileKey in
  fs_writeFile filePath fileBuffer ;;;
  ret fileKey.

Definition getFromLocalStorage (fileKey : string) : M Buffer :=
  let filePath := path_join localStoragePath fileKey in
  fs_readFile filePath.

Definition deleteFromLocalStorage (fileKey : string) : M unit :=
  let filePath := path_join localStoragePath fileKey in
  fs_unlink filePath.

(** [uuid] is the value of [uuidv4()]. *)
Definition uploadFile (fileBuffer : Buffer) (options : StorageOptions) (uuid : string)
  : M string :=
  let fileKey := userId options +:+ "/" +:+ uuid +:+ "-" +:+ filename options in
  updateUserStorageUsage (userId options) (buffer_length fileBuffer) ;;;
  if isObjectStorage then uploadToS3 fileBuffer fileKey (contentType options)
  else uploadToLocalStorage fileBuffer fileKey.

Definition getFile (fileKey : string) : M Buffer :=
  if isObjectStorage then getFromS3 fileKey else getFromLocalStorage fileKey.

Definition deleteFile (fileKey : string) : M unit :=
  let userId := default "" (head (split "/"%char fileKey)) in
  fileSize ⟵ getFileSize fileKey ;;
  updateUserStorageUsage userId (- fileSize) ;;;
  if isObjectStorage then deleteFromS3 fileKey else deleteFromLocalStorage fileKey.

End WithConfig.
End StorageService.

(* ------------------------------------------------------------------------- *)
(** ** The file controller *)

(** The JSON bodies the handlers send. *)
Inductive Body : Type :=
  | ErrorBody (message : string)
  | SuccessMessage (message : string)
  | FileBody (file : File.t)
  | FolderBody (folder : Folder.t).

Record Response : Type := mkResponse {
  status : nat;
  body : Body
}.

(** [req.file] as multer's memory storage provides it. *)
Module UploadedFile.
Record t : Type := mk {
  originalname : string;
  mimetype : string;
  size : Z;
  buffer : Buffer
}.
End UploadedFile.

Module FileController.
Section WithConfig.
Variable config : Config.

(** [x || null] on an optional string. *)
Definition orNull (o : option string) : option string :=
  if truthy_opt o then o else None.

(** [reqUser] is [req.user?.id], [reqFile] is [req.file], [folderId] is
    [req.body.folderId]; [keyUuid] and [fileUuid] are the two [uuidv4()]
    values drawn by the storage and the file service. *)
Definition uploadFile (reqUser : option string) (reqFile : option UploadedFile.t)
    (folderId : option string) (keyUuid fileUuid : string) (now : Z) : M Response :=
  try_catch
    (match reqUser with
     | Some userId =>
       if negb (truthy userId) then ret (mkResponse 401 (ErrorBody "Unauthorized"))
       else
         match reqFile with
         | None => ret (mkResponse 400 (ErrorBody "No file uploaded"))
         | Some f =>
           storageUsage ⟵ StorageService.getUserStorageUsage userId ;;
           if bool_decide (StorageService.totalBytes storageUsage
                           < StorageService.usedBytes storageUsage + UploadedFile.size f)
           then ret (mkResponse 400 (ErrorBody "Storage quota exceeded"))
           else
             fileKey ⟵ StorageService.uploadFile config (UploadedFile.buffer f)
                         (StorageService.mkStorageOptions userId (UploadedFile.originalname f)
                                                          (UploadedFile.mimetype f))
                         keyUuid ;;
             file ⟵ FileService.createFile
                      (FileService.mkFileData userId (UploadedFile.originalname f)
                                              (UploadedFile.size f) (UploadedFile.mimetype f)
                                              fileKey (orNull folderId))
                      fileUuid now ;;
             ret (mkResponse 201 (FileBody file))
         end
     | None => ret (mkResponse 401 (ErrorBody "Unauthorized"))
     end)
    (λ _, ret (mkResponse 500 (ErrorBody "Failed to upload file"))).

Definition updateFile (reqUser : option string) (fileId : string)
    (name : option string) (folderId : option (option string)) (now : Z) : M Response :=
  try_catch
    (match reqUser with
     | Some userId =>
       if negb (truthy userId) then ret (mkResponse 401 (ErrorBody "Unauthorized"))
       else
         existingFile ⟵ FileService.getFileById fileId userId ;;
         match existingFile with
         | None => ret (mkResponse 404 (ErrorBody "File not found"))
         | Some _ =>
           updatedFile ⟵ FileService.updateFile fileId
                            (FileService.mkFileUpdate name folderId) now ;;
           ret (mkResponse 200 (FileBody updatedFile))
         end
     | None => ret (mkResponse 401 (ErrorBody "Unauthorized"))
     end)
    (λ _, ret (mkResponse 500 (ErrorBody "Failed to update file"))).

Definition deleteFile (reqUser : option string) (fileId : string) : M Response :=
  try_catch
    (match reqUser with
     | Some userId =>
       if negb (truthy userId) then ret (mkResponse 401 (ErrorBody "Unauthorized"))
       else
         file ⟵ FileService.getFileById fileId userId ;;
         match file with
         | None => ret (mkResponse 404 (ErrorBody "File not found"))
         | Some file =>
           StorageService.deleteFile config (File.key file) ;;;
           FileService.deleteFile fileId ;;;
           ret (mkResponse 200 (SuccessMessage "File deleted successfully"))
         end
     | None => ret (mkResponse 401 (ErrorBody "Unauthorized"))
     end)
    (λ _, ret (mkResponse 500 (ErrorBody "Failed to delete file"))).

Definition createFolder (reqUser : option string) (name parentId : option string)
    (uuid : string) (now : Z) : M Response :=
  try_catch
    (match reqUser with
     | Some userId =>
       if negb (truthy userId) then ret (mkResponse 401 (ErrorBody "Unauthorized"))
       else
         match name with
         | Some name =>
           if negb (truthy name)
           then ret (mkResponse 400 (ErrorBody "Folder name is required"))
           else
             folder ⟵ FileService.createFolder
                        (FileService.mkFolderData userId name (orNull parentId)) uuid now ;;
             ret (mkResponse 201 (FolderBody folder))
         | None => ret (mkResponse 400 (ErrorBody "Folder name is required"))
         end
     | None => ret (mkResponse 401 (ErrorBody "Unauthorized"))
     end)
    (λ _, ret (mkResponse 500 (ErrorBody "Failed to create folder"))).

Definition updateFolder (reqUser : option string) (folderId : string)
    (name : option string) (parentId : option (option string)) (now : Z) : M Response :=
  try_catch
    (match reqUser with
     | Some userId =>
       if negb (truthy userId) then ret (mkResponse 401 (ErrorBody "Unauthorized"))
       else
         existingFolder ⟵ FileService.getFolderById folderId userId ;;
         match existingFolder with
         | None => ret (mkResponse 404 (ErrorBody "Folder not found"))
         | Some _ =>
           updatedFolder ⟵ FileService.updateFolder folderId
                              (FileService.mkFolderUpdate name parentId) now ;;
           ret (mkResponse 200 (FolderBody updatedFolder))
         end
     | None => ret (mkResponse 401 (ErrorBody "Unauthorized"))
     end)
    (λ _, ret (mkResponse 500 (ErrorBody "Failed to update folder"))).

Definition deleteFolder (fuel : nat) (reqUser : option string) (folderId : string)
  : M Response :=
  try_catch
    (match reqUser with
     | Some userId =>
       if negb (truthy userId) then ret (mkResponse 401 (ErrorBody "Unauthorized"))
       else
         folder ⟵ FileService.getFolderById folderId userId ;;
         match folder with
         | None => ret (mkResponse 404 (ErrorBody "Folder not found"))
         | Some _ =>
           FileService.deleteFolder fuel folderId userId ;;;
           ret (mkResponse 200 (SuccessMessage "Folder deleted successfully"))
         end
     | None => ret (mkResponse 401 (ErrorBody "Unauthorized"))
     end)
    (λ _, ret (mkResponse 500 (ErrorBody "Failed to delete folder"))).

End WithConfig.
End FileController.

(* ------------------------------------------------------------------------- *)
(** ** A small concrete installation used by the worked examples *)

Definition demoConfig : Config := mkConfig local ["srv"; "app"].
Definition demoObjectConfig : Config := mkConfig s3 ["srv"; "app"].

Definition emptyWorld : World := mkWorld [] [] [] ∅ ∅ ∅ true.

Definition t0 : Z := 1700000000000.

(** The world after running [m], and what [m] returned. *)
Definition after {A} (m : M A) (w : World) : World := fst (m w).
Definition outcome {A} (m : M A) (w : World) : Outcome A := snd (m w).

(** Sum of [size] over the file records of [userId]. *)
Definition liveBytes (userId : string) (w : World) : Z :=
  foldr Z.add 0 (File.size <$> filter (λ f, File.userId f = userId) (files w)).

(** [usedBytes] as [getUserStorageUsage] reports it. *)
Definition reportedUsedBytes (userId : string) (w : World) : option Z :=
  match outcome (StorageService.getUserStorageUsage userId) w with
  | Ok u => Some (StorageService.usedBytes u)
  | _ => None
  end.

Definition buf700 : Buffer := replicate 700 Byte.x00.
Definition demoUpload : UploadedFile.t := UploadedFile.mk "a.txt" "text/plain" 700 buf700.

(** User u1 creates folder F1 and uploads a 700-byte file into it. *)
Definition wFolder : World :=
  after (FileController.createFolder (Some "u1") (Some "docs") None "F1" t0) emptyWorld.
Definition wUploaded : World :=
  after (FileController.uploadFile demoConfig (Some "u1") (Some demoUpload) (Some "F1")
                                   "k1" "f1" t0) wFolder.
(** ... then shares the file ... *)
Definition wShared : World :=
  after (FileService.createShareLink
           (FileService.mkShareData "f1" "u1" None true []) "s1" "tok1" t0) wUploaded.
(** ... and deletes the folder. *)
Definition wCascade : World :=
  after (FileController.deleteFolder 8 (Some "u1") "F1") wShared.

(** The same installation while the storage medium is unreachable. *)
Definition down (w : World) : World :=
  mkWorld (files w) (folders w) (shareLinks w) (userStorageUsage w) (disk w) (bucket w) false.

(** A share link passes the expiry test of [getShareLinkByToken] at [now]. *)
Definition validAt (now : Z) (l : ShareLink.t) : Prop :=
  match ShareLink.expiresAt l with
  | None => True
  | Some (DateMs e) => now ≤ e
  | Some InvalidDate => True
  end.
#[global] Instance validAt_dec now l : Decision (validAt now l).
Proof. unfold validAt. destruct (ShareLink.expiresAt l) as [[e|]|]; apply _. Defined.

(** The validity rule of the specification: [expiresAt == null] or
    [expiresAt > now]. *)
Definition validStrictlyLater (now : Z) (l : ShareLink.t) : Prop :=
  match ShareLink.expiresAt l with
  | None => True
  | Some (DateMs e) => now < e
  | Some InvalidDate => False
  end.

(** A link that expires exactly at [t0]. *)
Definition boundaryLink : ShareLink.t :=
  ShareLink.mk "s2" "f1" "u1" "tok2" (Some (DateMs t0)) true [] (DateMs (t0 - 1000)).
Definition wBoundary : World :=
  after (FileService.createShareLink
           (FileService.mkShareData "f1" "u1" (Some (DateMs t0)) true []) "s2" "tok2" (t0 - 1000))
        emptyWorld.

(** Folder A at the root with its child B. *)
Definition treeFolders : list Folder.t :=
  [ Folder.mk "A" "u1" "a" None (DateMs t0) (DateMs t0);
    Folder.mk "B" "u1" "b" (Some "A") (DateMs t0) (DateMs t0) ].

(** The file record and the share link of the worked installation. *)
Definition demoFile : File.t :=
  File.mk "f1" "u1" "a.txt" 700 "text/plain" "u1/k1-a.txt" (Some "F1") (DateMs t0) (DateMs t0).
Definition demoLink : ShareLink.t :=
  ShareLink.mk "s1" "f1" "u1" "tok1" None true [] (DateMs t0).

Definition wDown : World := down wShared.

Definition okFolderDeleted : Outcome Response :=
  Ok (mkResponse 200 (SuccessMessage "Folder deleted successfully")).


(** A key with a parent-directory segment, and a one-byte payload. *)
Definition escapingKey : string := "../secret.txt".
Definition secretBuf : Buffer := [Byte.x2a].

(** The three metadata tables of [w'] are those of [w]. *)
Definition sameTables (w w' : World) : Prop :=
  files w' = files w ∧ folders w' = folders w ∧ shareLinks w' = shareLinks w.

(** An owner whose counter already stands at the fixed quota. *)
Definition tenGiB : Z := 10 * 1024 * 1024 * 1024.
Definition wFull : World := set_userStorageUsage {[ "u1" := tenGiB ]} emptyWorld.

(* ========================================================================= *)
(** * The rest of the services *)

(* ------------------------------------------------------------------------- *)
(** ** Folder hierarchy *)

(** [x] is the id of a folder that lies below [root] by parent links. *)
Inductive descendantOf (allFolders : list Folder.t) (root : string) : string → Prop :=
  | descendant_child (f : Folder.t) :
      f ∈ allFolders → Folder.parentId f = Some root →
      descendantOf allFolders root (Folder.id f)
  | descendant_step (f : Folder.t) (x : string) :
      descendantOf allFolders root x →
      f ∈ allFolders → Folder.parentId f = Some x →
      descendantOf allFolders root (Folder.id f).

(** The loop body of [getAllSubfolderIds], for a given depth. *)
Definition subfolderStep (fuel : nat) (allFolders : list Folder.t)
    (acc : option (list string)) (subfolder : Folder.t) : option (list string) :=
  subfolderIds ← acc;
  childIds ← FileService.getAllSubfolderIds fuel allFolders (Folder.id subfolder);
  Some (subfolderIds ++ [Folder.id subfolder] ++ childIds).

(** A depth assignment for [treeFolders]: A above B. *)
Definition treeRank (x : string) : nat := if bool_decide (x = "A") then 1%nat else 0%nat.

(* ------------------------------------------------------------------------- *)
(** ** [FileService.listFiles] *)

(** [l.slice(start, end)] on integer arguments: a negative index counts from
    the end, both are clamped to the array, and an empty range gives []. *)
Definition jsSlice {A} (l : list A) (startIndex endIndex : Z) : list A :=
  let len := Z.of_nat (length l) in
  let k := if bool_decide (startIndex < 0) then Z.max (len + startIndex) 0
           else Z.min startIndex len in
  let final := if bool_decide (endIndex < 0) then Z.max (len + endIndex) 0
               else Z.min endIndex len in
  take (Z.to_nat (final - k)) (drop (Z.to_nat k) l).

Module FileListing.

Inductive SortOrder : Type := asc | desc.

(** Argument and result of [listFiles]. *)
Record ListOptions : Type := mkListOptions {
  lo_userId : string;
  lo_folderId : option string;
  lo_page : Z;
  lo_limit : Z;
  lo_sortBy : string;
  lo_sortOrder : SortOrder
}.

Record ListResult : Type := mkListResult {
  lr_files : list File.t;
  lr_total : Z;
  lr_page : Z;
  lr_limit : Z
}.

Section WithSort.
(** [arraySort sortBy sortOrder l] stands for [l.sort(cmp)] with the
    comparator the source builds from [sortBy] and [sortOrder]; the order the
    engine produces is left open. *)
Variable arraySort : string → SortOrder → list File.t → list File.t.

Definition listFiles (options : ListOptions) : M ListResult :=
  gets (λ w,
    let filteredFiles := filter (λ f, File.userId f = lo_userId options) (files w) in
    let filteredFiles :=
      match lo_folderId options with
      | Some folderId => filter (λ f, File.folderId f = Some folderId) filteredFiles
      | None => filter (λ f, File.folderId f = None) filteredFiles
      end in
    let filteredFiles := arraySort (lo_sortBy options) (lo_sortOrder options) filteredFiles in
    let startIndex := (lo_page options - 1) * lo_limit options in
    let endIndex := startIndex + lo_limit options in
    let paginatedFiles := jsSlice filteredFiles startIndex endIndex in
    mkListResult paginatedFiles (Z.of_nat (length filteredFiles))
                 (lo_page options) (lo_limit options)).

End WithSort.
End FileListing.

(** The files [listFiles] selects before it sorts and cuts out a page. *)
Definition matching (userId : string) (folderId : option string) (w : World) : list File.t :=
  filter (λ f, File.userId f = userId ∧ File.folderId f = folderId) (files w).

(** Pages 1 to [n] of size [limit], one after the other. *)
Fixpoint pagesUpTo (arraySort : string → FileListing.SortOrder → list File.t → list File.t)
    (userId : string) (folderId : option string) (sortBy : string)
    (sortOrder : FileListing.SortOrder) (limit : Z) (n : nat) (w : World) : list File.t :=
  match n with
  | O => []
  | S n' =>
    pagesUpTo arraySort userId folderId sortBy sortOrder limit n' w ++
    match outcome (FileListing.listFiles arraySort
                     (FileListing.mkListOptions userId folderId (Z.of_nat n) limit
                                                sortBy sortOrder)) w with
    | Ok r => FileListing.lr_files r
    | _ => []
    end
  end.

(** A sort that the worked examples use: it returns the files in reverse. *)
Definition reverseSort (sortBy : string) (sortOrder : FileListing.SortOrder)
    (l : list File.t) : list File.t := reverse l.

Definition demoListOptions : FileListing.ListOptions :=
  FileListing.mkListOptions "u1" (Some "F1") 1 20 "createdAt" FileListing.desc.

(* ------------------------------------------------------------------------- *)
(** ** File utilities and the remaining handlers of the file controller *)

(** [parts.join('/')] *)
Definition join (sep : string) (parts : list string) : string := String.concat sep parts.

(** The thumbnail key of a stored file (file utilities). *)
Definition generateThumbnailPath (fileKey : string) : string :=
  let parts := split "/" fileKey in
  let filename := default "" (last parts) in
  join "/" (removelast parts ++ ["thumb_" +:+ filename]).

(** What the remaining handlers of the file controller send: one of the JSON
    bodies above, a share link, a folder list, or the raw bytes of a download
    with its two headers. *)
Inductive Reply : Type :=
  | Json (response : Response)
  | JsonShareLink (status : nat) (shareLink : ShareLink.t)
  | JsonFolders (status : nat) (folders : list Folder.t)
  | SendFile (contentType contentDisposition : string) (fileData : Buffer).

Definition doubleQuote : string := String (ascii_of_nat 34) EmptyString.

Module FileControllerMore.
Section WithConfig.
Variable config : Config.

Definition getFileDetails (reqUser : option string) (fileId : string) : M Reply :=
  try_catch
    (match reqUser with
     | Some userId =>
       if negb (truthy userId) then ret (Json (mkResponse 401 (ErrorBody "Unauthorized")))
       else
         file ⟵ FileService.getFileById fileId userId ;;
         match file with
         | None => ret (Json (mkResponse 404 (ErrorBody "File not found")))
         | Some file => ret (Json (mkResponse 200 (FileBody file)))
         end
     | None => ret (Json (mkResponse 401 (ErrorBody "Unauthorized")))
     end)
    (λ _, ret (Json (mkResponse 500 (ErrorBody "Failed to get file details")))).

Definition downloadFile (reqUser : option string) (fileId : string) : M Reply :=
  try_catch
    (match reqUser with
     | Some userId =>
       if negb (truthy userId) then ret (Json (mkResponse 401 (ErrorBody "Unauthorized")))
       else
         file ⟵ FileService.getFileById fileId userId ;;
         match file with
         | None => ret (Json (mkResponse 404 (ErrorBody "File not found")))
         | Some file =>
           fileData ⟵ StorageService.getFile config (File.key file) ;;
           ret (SendFile (File.mimeType file)
                         ("attachment; filename=" +:+ doubleQuote +:+ File.name file
                          +:+ doubleQuote)
                         fileData)
         end
     | None => ret (Json (mkResponse 401 (ErrorBody "Unauthorized")))
     end)
    (λ _, ret (Json (mkResponse 500 (ErrorBody "Failed to download file")))).

Definition listFolders (reqUser : option string) (parentId : option string) : M Reply :=
  try_catch
    (match reqUser with
     | Some userId =>
       if negb (truthy userId) then ret (Json (mkResponse 401 (ErrorBody "Unauthorized")))
       else
         folders ⟵ FileService.listFolders userId (FileController.orNull parentId) ;;
         ret (JsonFolders 200 folders)
     | None => ret (Json (mkResponse 401 (ErrorBody "Unauthorized")))
     end)
    (λ _, ret (Json (mkResponse 500 (ErrorBody "Failed to list folders")))).

(** [expiresAt] is [new Date(req.body.expiresAt)] when the body has a truthy
    [expiresAt]; [isPublic || false] and [allowedEmails || []] are applied to
    the optional body fields. *)
Definition shareFile (reqUser : option string) (fileId : string)
    (expiresAt : option Date) (isPublic : option bool) (allowedEmails : option (list string))
    (uuid tokenUuid : string) (now : Z) : M Reply :=
  try_catch
    (match reqUser with
     | Some userId =>
       if negb (truthy userId) then ret (Json (mkResponse 401 (ErrorBody "Unauthorized")))
       else
         file ⟵ FileService.getFileById fileId userId ;;
         match file with
         | None => ret (Json (mkResponse 404 (ErrorBody "File not found")))
         | Some _ =>
           shareLink ⟵ FileService.createShareLink
                          (FileService.mkShareData fileId userId expiresAt
                                                   (default false isPublic)
                                                   (default [] allowedEmails))
                          uuid tokenUuid now ;;
           ret (JsonShareLink 201 shareLink)
         end
     | None => ret (Json (mkResponse 401 (ErrorBody "Unauthorized")))
     end)
    (λ _, ret (Json (mkResponse 500 (ErrorBody "Failed to share file")))).

Definition removeFileShare (reqUser : option string) (fileId shareId : string) : M Reply :=
  try_catch
    (match reqUser with
     | Some userId =>
       if negb (truthy userId) then ret (Json (mkResponse 401 (ErrorBody "Unauthorized")))
       else
         file ⟵ FileService.getFileById fileId userId ;;
         match file with
         | None => ret (Json (mkResponse 404 (ErrorBody "File not found")))
         | Some _ =>
           FileService.deleteShareLink shareId userId ;;;
           ret (Json (mkResponse 200 (SuccessMessage "Share link removed successfully")))
         end
     | None => ret (Json (mkResponse 401 (ErrorBody "Unauthorized")))
     end)
    (λ _, ret (Json (mkResponse 500 (ErrorBody "Failed to remove share link")))).

End WithConfig.
End FileControllerMore.
(** [s.includes(c)] for a single character. *)
Fixpoint containsChar (c : ascii) (s : string) : bool :=
  match s with
  | EmptyString => false
  | String c' s' => Ascii.eqb c' c || containsChar c s'
  end.

(** Every usage counter is non-negative. *)
Definition usageNonNegative (w : World) : Prop :=
  ∀ userId v, userStorageUsage w !! userId = Some v → 0 ≤ v.

(** The size [getFileSize] reports: that of the stored file on a reachable
    local medium, 0 in every other case. *)
Definition reportedFileSize (config : Config) (fileKey : string) (w : World) : Z :=
  match storageType config with
  | local =>
    if backendUp w then
      match disk w !! path_join (StorageService.localStoragePath config) fileKey with
      | Some b => buffer_length b
      | None => 0
      end
    else 0
  | _ => 0
  end.

Definition demoOptions : StorageService.StorageOptions :=
  StorageService.mkStorageOptions "u1" "a.txt" "text/plain".
Definition demoKey : string := "u1/k1-a.txt".

(* ------------------------------------------------------------------------- *)
(** ** user.service.ts and the registration handler *)

Module User.
Record t : Type := mk {
  id : string;
  email : string;
  password : string;
  name : string;
  createdAt : Date;
  updatedAt : Date
}.
End User.

(** The user service keeps its own module-level table [users]; its methods
    are written over that table alone.  [bcryptHash password salt] stands for
    [bcrypt.hash], [salt] for the value of [bcrypt.genSalt(10)]. *)
Module UserService.
Section WithBcrypt.
Variable bcryptHash : string → string → string.

Definition findByEmail (email : string) (users : list User.t) : option User.t :=
  find (λ u, bool_decide (User.email u = email)) users.

Definition findById (id : string) (users : list User.t) : option User.t :=
  find (λ u, bool_decide (User.id u = id)) users.

Definition create (email password name : string) (salt uuid : string) (now : Z)
    (users : list User.t) : list User.t * User.t :=
  let hashedPassword := bcryptHash password salt in
  let newUser := User.mk uuid email hashedPassword name (DateMs now) (DateMs now) in
  (users ++ [newUser], newUser).


Definition delete (userId : string) (users : list User.t) : list User.t * Outcome unit :=
  match findIndex (λ u, bool_decide (User.id u = userId)) users with
  | None => (users, Throw "User not found")
  | Some userIndex => (base.delete userIndex users, Ok tt)
  end.

End WithBcrypt.
End UserService.

(** What [register] sends. *)
Inductive RegisterReply : Type :=
  | RegisterError (status : nat) (message : string)
  | Registered (id email name token : string).

(** [jwtSign userId] stands for
    [jwt.sign({ userId }, config.jwtSecret, { expiresIn: '7d' })].  The
    handler's catch-all, which only a failing library call reaches, is not
    represented. *)
Module UserController.
Section WithLibraries.
Variable bcryptHash : string → string → string.
Variable jwtSign : string → string.

Definition register (email password name : option string) (salt uuid : string) (now : Z)
    (users : list User.t) : list User.t * RegisterReply :=
  if negb (truthy_opt email) || negb (truthy_opt password) || negb (truthy_opt name)
  then (users, RegisterError 400 "Email, password and name are required")
  else
    match UserService.findByEmail (default "" email) users with
    | Some _ => (users, RegisterError 409 "User with this email already exists")
    | None =>
      let '(users', user) :=
        UserService.create bcryptHash (default "" email) (default "" password)
                           (default "" name) salt uuid now users in
      let token := jwtSign (User.id user) in
      (users', Registered (User.id user) (User.email user) (User.name user) token)
    end.

End WithLibraries.
End UserController.

(** Stand-ins for the two libraries, and a table with one user. *)
Definition demoHash (password salt : string) : string := salt +:+ "$" +:+ password.
Definition demoSign (userId : string) : string := "jwt." +:+ userId.
Definition demoUser : User.t :=
  User.mk "U1" "ann@example.org" (demoHash "Secret123" "s") "Ann" (DateMs t0) (DateMs t0).

(* ========================================================================= *)
(** * Properties *)

Ltac run_m :=
  unfold after, outcome, bind, gets, modify, ret, throw, try_catch, out_of_fuel in *;
  simpl in *.

(* ------------------------------------------------------------------------- *)
(** ** The array idioms *)

Section array_idioms.
Context {A : Type} (p : A → bool).

Lemma matchingIndices_shift (k : nat) (l : list A) :
  filter (λ index, index ≠ -1)
         (imap (λ index x, if p x then Z.of_nat (k + index) else -1) l)
  = indicesFrom p k l.
Proof.
  revert k. induction l as [|x l IH]; intros k; [done|].
  rewrite imap_cons. cbn [indicesFrom].
  rewrite (imap_ext _ (λ index x, if p x then Z.of_nat (S k + index) else -1)).
  2:{ intros i y _. simpl. by replace (k + S i)%nat with (S (k + i)) by lia. }
  rewrite Nat.add_0_r. destruct (p x).
  - rewrite filter_cons_True by lia. by rewrite IH.
  - rewrite filter_cons_False by (intros H; by apply H). by rewrite IH.
Qed.

Lemma matchingIndices_indicesFrom (l : list A) :
  matchingIndices p l = indicesFrom p 0 l.
Proof. apply (matchingIndices_shift 0). Qed.

Lemma indicesFrom_lower (k : nat) (l : list A) (z : Z) :
  z ∈ indicesFrom p k l → Z.of_nat k ≤ z.
Proof.
  revert k. induction l as [|x l IH]; intros k; simpl; [by intros ?%elem_of_nil|].
  destruct (p x).
  - intros [->|Hin]%elem_of_cons; [lia|]. apply IH in Hin. lia.
  - intros Hin. apply IH in Hin. lia.
Qed.

Lemma indicesFrom_reverse_sorted (k : nat) (l : list A) :
  StronglySorted descending (reverse (indicesFrom p k l)).
Proof.
  revert k. induction l as [|x l IH]; intros k; simpl; [constructor|].
  destruct (p x); [|apply IH].
  rewrite reverse_cons. apply StronglySorted_app_2; [|apply IH|repeat constructor].
  intros x1 x2 Hx1%elem_of_reverse%indicesFrom_lower ->%list_elem_of_singleton.
  unfold descending. lia.
Qed.

Lemma sortDescending_indicesFrom (k : nat) (l : list A) :
  sortDescending (indicesFrom p k l) = reverse (indicesFrom p k l).
Proof.
  assert (Transitive descending) by (intros a b c; unfold descending; lia).
  assert (Total descending) by (intros a b; unfold descending; lia).
  assert (AntiSymm (=) descending) by (intros a b; unfold descending; lia).
  apply (StronglySorted_unique descending).
  - apply StronglySorted_merge_sort; done.
  - apply indicesFrom_reverse_sorted.
  - unfold sortDescending. by rewrite merge_sort_Permutation, reverse_Permutation.
Qed.

Lemma spliceAll_indicesFrom (pre l : list A) :
  spliceAll (pre ++ l) (reverse (indicesFrom p (length pre) l))
  = pre ++ filter (λ x, p x = false) l.
Proof.
  revert pre. induction l as [|x l IH]; intros pre; [done|].
  specialize (IH (pre ++ [x])). rewrite length_app, Nat.add_1_r, <-!app_assoc in IH.
  simpl in *. destruct (p x) eqn:Hx.
  - rewrite reverse_cons. unfold spliceAll in *. rewrite foldl_snoc, IH.
    rewrite filter_cons_False by congruence.
    rewrite Nat2Z.id. apply delete_middle.
  - rewrite filter_cons_True by done. apply IH.
Qed.

Lemma removeMatching_filter (l : list A) :
  removeMatching p l = filter (λ x, p x = false) l.
Proof.
  unfold removeMatching.
  rewrite matchingIndices_indicesFrom, sortDescending_indicesFrom.
  apply (spliceAll_indicesFrom []).
Qed.
End array_idioms.

(* ------------------------------------------------------------------------- *)
(** ** [find] and [findIndex] *)

Lemma findWithIndex_Some {A} (p : A → bool) (l : list A) i x :
  findWithIndex p l = Some (i, x) →
  l !! i = Some x ∧ p x = true ∧ ∀ j y, l !! j = Some y → (j < i)%nat → p y = false.
Proof.
  unfold findWithIndex. intros (Hl & Hp & Hfirst)%list_find_Some.
  split_and!; [done..|]. intros j y Hj Hlt.
  specialize (Hfirst j y Hj Hlt). by destruct (p y).
Qed.

Lemma findWithIndex_exists {A} (p : A → bool) (l : list A) x :
  x ∈ l → p x = true → ∃ i y, findWithIndex p l = Some (i, y).
Proof.
  intros Hin Hp. unfold findWithIndex.
  destruct (list_find_elem_of (λ x, p x = true) l x Hin Hp) as [[i y] Hiy]. eauto.
Qed.

Lemma findIndex_exists {A} (p : A → bool) (l : list A) x :
  x ∈ l → p x = true → ∃ i, findIndex p l = Some i.
Proof.
  intros Hin Hp. destruct (findWithIndex_exists p l x Hin Hp) as (i & y & Hfind).
  exists i. unfold findIndex. unfold findWithIndex in Hfind. by rewrite Hfind.
Qed.

Lemma findWithIndex_None {A} (p : A → bool) (l : list A) :
  findWithIndex p l = None ↔ ∀ x, x ∈ l → p x = false.
Proof.
  unfold findWithIndex. rewrite list_find_None, Forall_forall.
  split; intros H x Hx; specialize (H x Hx); by destruct (p x).
Qed.

Lemma find_Some {A} (p : A → bool) (l : list A) x :
  find p l = Some x → x ∈ l ∧ p x = true.
Proof.
  unfold find. destruct (list_find _ l) as [[i y]|] eqn:E; [|done].
  intros [= <-]. apply (findWithIndex_Some p) in E as (Hl & Hp & _).
  split; [by eapply list_elem_of_lookup_2|done].
Qed.

Lemma find_None {A} (p : A → bool) (l : list A) :
  find p l = None ↔ ∀ x, x ∈ l → p x = false.
Proof.
  unfold find. rewrite fmap_None. apply findWithIndex_None.
Qed.

(* ------------------------------------------------------------------------- *)
(** ** Frame lemmas *)

(** [StorageService.deleteFile] touches the usage counter and the medium,
    never the metadata tables, whatever its outcome. *)
Lemma storage_deleteFile_sameTables (config : Config) (fileKey : string) (w : World) :
  sameTables w (after (StorageService.deleteFile config fileKey) w).
Proof.
  unfold StorageService.deleteFile, StorageService.getFileSize,
    StorageService.updateUserStorageUsage, StorageService.deleteFromS3,
    StorageService.deleteFromLocalStorage, StorageService.s3Client,
    StorageService.isObjectStorage, fs_stat_size, fs_unlink, s3_delete, sameTables.
  run_m.
  destruct w as [fs os ss usage d bk up]; simpl.
  destruct (storageType config), up; simpl;
    repeat (match goal with
            | |- context [match ?m !! ?k with _ => _ end] => destruct (m !! k); simpl
            end);
    done.
Qed.

(** X2.  [FileService.deleteFolder] only ever rewrites [files] and
    [folders]: the usage counters, the share-link table, the disk and the
    bucket are the same before and after, whatever the outcome. *)
Lemma deleteFolder_frame (fuel : nat) (folderId userId : string) (w : World) :
  userStorageUsage (after (FileService.deleteFolder fuel folderId userId) w) = userStorageUsage w
  ∧ shareLinks (after (FileService.deleteFolder fuel folderId userId) w) = shareLinks w
  ∧ disk (after (FileService.deleteFolder fuel folderId userId) w) = disk w
  ∧ bucket (after (FileService.deleteFolder fuel folderId userId) w) = bucket w.
Proof.
  unfold FileService.deleteFolder. run_m.
  destruct (findIndex _ _); simpl; [|done].
  destruct (FileService.getAllSubfolderIds _ _ _); done.
Qed.

(** X4.  [updateFolder] on an id that no folder carries throws
    "Folder not found" and leaves the world as it is. *)
Lemma updateFolder_absent (w : World) (folderId : string)
    (folderData : FileService.FolderUpdate) (now : Z) :
  (∀ f, f ∈ folders w → Folder.id f ≠ folderId) →
  FileService.updateFolder folderId folderData now w = (w, Throw "Folder not found").
Proof.
  intros Habs. unfold FileService.updateFolder. run_m.
  rewrite (proj2 (findWithIndex_None _ _)); [done|].
  intros f Hf. apply bool_decide_eq_false. by apply Habs.
Qed.

(** X4 at a table without folder A. *)
Lemma updateFolder_absent_witness :
  (∀ f, f ∈ folders emptyWorld → Folder.id f ≠ "A")
  ∧ FileService.updateFolder "A" (FileService.mkFolderUpdate None (Some None)) t0 emptyWorld
    = (emptyWorld, Throw "Folder not found").
Proof.
  assert (∀ f, f ∈ folders emptyWorld → Folder.id f ≠ "A") as Habs.
  { intros f Hf. simpl in Hf. by apply elem_of_nil in Hf. }
  split; [exact Habs|].
  exact (updateFolder_absent emptyWorld "A" (FileService.mkFolderUpdate None (Some None)) t0 Habs).
Defined.

(* ------------------------------------------------------------------------- *)
(** ** Path resolution of the local medium *)

Lemma pushSegment_prefix (root acc : Path) (seg : string) :
  seg ≠ ".." → root `prefix_of` acc → root `prefix_of` pushSegment acc seg.
Proof.
  intros Hseg Hpre. unfold pushSegment.
  case_bool_decide; [done|].
  rewrite bool_decide_eq_false_2 by done.
  by apply prefix_app_r.
Qed.

Lemma foldl_pushSegment_prefix (root : Path) (segs : list string) (acc : Path) :
  ".." ∉ segs → root `prefix_of` acc → root `prefix_of` foldl pushSegment acc segs.
Proof.
  revert acc. induction segs as [|seg segs IH]; intros acc Hno Hpre; [done|].
  simpl. apply IH.
  - intros Hin. apply Hno. by right.
  - apply pushSegment_prefix; [|done]. intros ->. apply Hno. by left.
Qed.

Lemma path_join_prefix (root : Path) (key : string) :
  ".." ∉ split "/" key → root `prefix_of` path_join root key.
Proof. intros Hno. by apply foldl_pushSegment_prefix. Qed.

(* ------------------------------------------------------------------------- *)
(** ** Share-link lookup *)

Lemma NoDup_fmap_eq {A B} (f : A → B) (l : list A) x y :
  NoDup (f <$> l) → x ∈ l → y ∈ l → f x = f y → x = y.
Proof.
  induction l as [|a l IH]; [by intros _ ?%elem_of_nil|].
  rewrite fmap_cons, NoDup_cons. intros [Hnotin Hnd].
  intros [->|Hx]%elem_of_cons [->|Hy]%elem_of_cons Hf; [done| | |by apply IH].
  - destruct Hnotin. rewrite Hf. by apply list_elem_of_fmap_2.
  - destruct Hnotin. rewrite <-Hf. by apply list_elem_of_fmap_2.
Qed.

(** The result of [getShareLinkByToken] in terms of the first link that
    carries the token. *)
Lemma getShareLinkByToken_eval (w : World) (token : string) (now : Z) :
  FileService.getShareLinkByToken token now w =
  (w, Ok (match find (λ s, bool_decide (ShareLink.token s = token)) (shareLinks w) with
          | Some s => if decide (validAt now s) then Some s else None
          | None => None
          end)).
Proof.
  unfold FileService.getShareLinkByToken. run_m.
  destruct (find _ _) as [s|]; [|done].
  destruct (decide (validAt now s)) as [Hv|Hv]; unfold validAt in Hv;
    destruct (ShareLink.expiresAt s) as [[e|]|]; simpl; try done.
  - by rewrite bool_decide_eq_false_2 by lia.
  - by rewrite bool_decide_eq_true_2 by lia.
Qed.

(* ========================================================================= *)
(** * The claims of the specification *)

(** C1.  The specification asks that, after every upload and delete
    (folder-cascade deletes included), the sizes of an owner's file records
    add up to the [usedBytes] that [getUserStorageUsage] reports.  The
    cascade of [deleteFolder] removes the file records without releasing
    their bytes: after u1 uploads 700 bytes into folder F1 both numbers are
    700; after F1 is deleted (answer 200) u1 owns no file record, the records
    sum to 0, and [usedBytes] is still 700. *)
Theorem C1_cascade_delete_keeps_usedBytes :
  liveBytes "u1" wUploaded = 700
  ∧ reportedUsedBytes "u1" wUploaded = Some 700
  ∧ outcome (FileController.deleteFolder 8 (Some "u1") "F1") wUploaded = okFolderDeleted
  ∧ files (after (FileController.deleteFolder 8 (Some "u1") "F1") wUploaded) = []
  ∧ liveBytes "u1" (after (FileController.deleteFolder 8 (Some "u1") "F1") wUploaded) = 0
  ∧ reportedUsedBytes "u1" (after (FileController.deleteFolder 8 (Some "u1") "F1") wUploaded)
    = Some 700.
Proof. split_and!; vm_compute; reflexivity. Qed.




(** C3.  The specification asks that no share link outlives its file, on
    direct deletes and on folder cascades alike.  [deleteFile] removes the
    links of the file, [deleteFolder] does not look at the share-link table:
    with file f1 (shared through link s1) inside folder F1, deleting F1
    removes f1 and leaves s1, which now points at no file; deleting f1
    directly from the same world removes s1. *)
Theorem C3_cascade_delete_leaves_share_link :
  files wShared = [demoFile]
  ∧ shareLinks wShared = [demoLink]
  ∧ ShareLink.fileId demoLink = File.id demoFile
  ∧ outcome (FileController.deleteFolder 8 (Some "u1") "F1") wShared = okFolderDeleted
  ∧ files wCascade = []
  ∧ shareLinks wCascade = [demoLink]
  ∧ shareLinks (after (FileController.deleteFile demoConfig (Some "u1") "f1") wShared) = [].
Proof. split_and!; vm_compute; reflexivity. Qed.

(** C4.  The specification asks that a failed [put] leaves the quota
    counter as it was.  [uploadFile] charges the owner before it writes: with
    the medium down, the storage call throws, the controller answers 500 and
    creates no file record, and u1's [usedBytes] has gone from 0 to 700. *)
Theorem C4_failed_put_charges_quota :
  reportedUsedBytes "u1" (down wFolder) = Some 0
  ∧ outcome (StorageService.uploadFile demoConfig buf700
               (StorageService.mkStorageOptions "u1" "a.txt" "text/plain") "k1") (down wFolder)
    = Throw "EIO"
  ∧ outcome (FileController.uploadFile demoConfig (Some "u1") (Some demoUpload) (Some "F1")
                                       "k1" "f1" t0) (down wFolder)
    = Ok (mkResponse 500 (ErrorBody "Failed to upload file"))
  ∧ files (after (FileController.uploadFile demoConfig (Some "u1") (Some demoUpload)
                                            (Some "F1") "k1" "f1" t0) (down wFolder)) = []
  ∧ reportedUsedBytes "u1"
      (after (FileController.uploadFile demoConfig (Some "u1") (Some demoUpload)
                                        (Some "F1") "k1" "f1" t0) (down wFolder))
    = Some 700.
Proof. split_and!; vm_compute; reflexivity. Qed.

(** C5, as amended.  The controller deletes from the medium first and
    removes the metadata only afterwards, inside one [try].  Whenever the
    caller owns the file and the storage-service delete throws, the handler
    answers 500 "Failed to delete file" and the files, folders and share-link
    tables are exactly as before: the record is still found. *)
Theorem C5_backend_failure_keeps_metadata
    (config : Config) (w w1 : World) (userId fileId e : string) (file : File.t) :
  truthy userId = true →
  outcome (FileService.getFileById fileId userId) w = Ok (Some file) →
  StorageService.deleteFile config (File.key file) w = (w1, Throw e) →
  FileController.deleteFile config (Some userId) fileId w
    = (w1, Ok (mkResponse 500 (ErrorBody "Failed to delete file")))
  ∧ files w1 = files w ∧ folders w1 = folders w ∧ shareLinks w1 = shareLinks w
  ∧ outcome (FileService.getFileById fileId userId) w1 = Ok (Some file).
Proof.
  intros Huser Hget Hdel.
  pose proof (storage_deleteFile_sameTables config (File.key file) w) as Hsame.
  unfold after in Hsame. rewrite Hdel in Hsame. destruct Hsame as (Hf & Ho & Hs).
  split_and!; try done.
  - unfold FileController.deleteFile, FileService.getFileById in *. run_m.
    rewrite Huser. simpl. injection Hget as Hget. rewrite Hget. simpl.
    by rewrite Hdel.
  - unfold FileService.getFileById in *. run_m. by rewrite Hf.
Qed.

(** C5 at the worked installation with the medium down. *)
Lemma C5_backend_failure_witness :
  truthy "u1" = true
  ∧ outcome (FileService.getFileById "f1" "u1") wDown = Ok (Some demoFile)
  ∧ StorageService.deleteFile demoConfig (File.key demoFile) wDown = (wDown, Throw "EIO")
  ∧ FileController.deleteFile demoConfig (Some "u1") "f1" wDown
    = (wDown, Ok (mkResponse 500 (ErrorBody "Failed to delete file")))
  ∧ files wDown = files wDown ∧ folders wDown = folders wDown
  ∧ shareLinks wDown = shareLinks wDown
  ∧ outcome (FileService.getFileById "f1" "u1") wDown = Ok (Some demoFile).
Proof.
  assert (truthy "u1" = true) as H1 by reflexivity.
  assert (outcome (FileService.getFileById "f1" "u1") wDown = Ok (Some demoFile)) as H2
    by (vm_compute; reflexivity).
  assert (StorageService.deleteFile demoConfig (File.key demoFile) wDown = (wDown, Throw "EIO"))
    as H3 by (vm_compute; reflexivity).
  split_and!; [exact H1|exact H2|exact H3|..];
    apply (C5_backend_failure_keeps_metadata demoConfig wDown wDown "u1" "f1" "EIO" demoFile
             H1 H2 H3).
Defined.

(** C5 as stated fails: with the medium down the storage delete throws, the
    handler answers 500, and the file's record is still in the namespace. *)
Lemma C5_backend_down_counterexample :
  outcome (FileService.getFileById "f1" "u1") wDown = Ok (Some demoFile)
  ∧ outcome (StorageService.deleteFile demoConfig (File.key demoFile)) wDown = Throw "EIO"
  ∧ outcome (FileController.deleteFile demoConfig (Some "u1") "f1") wDown
    = Ok (mkResponse 500 (ErrorBody "Failed to delete file"))
  ∧ outcome (FileService.getFileById "f1" "u1")
            (after (FileController.deleteFile demoConfig (Some "u1") "f1") wDown)
    = Ok (Some demoFile).
Proof. split_and!; vm_compute; reflexivity. Qed.

(** C6, as amended.  [createFolder] never fails and never looks at the
    folder table: for every [parentId], present or not, it appends a new
    folder carrying exactly that [parentId] and returns it; the controller
    answers 201 with that folder whenever the caller is authenticated and the
    name is not empty. *)
Theorem C6_createFolder_never_checks_parent (uuid : string) (now : Z) (w : World) :
  (∀ folderData : FileService.FolderData,
     ∃ newFolder,
       FileService.createFolder folderData uuid now w
       = (set_folders (folders w ++ [newFolder]) w, Ok newFolder)
       ∧ Folder.id newFolder = uuid
       ∧ Folder.userId newFolder = FileService.od_userId folderData
       ∧ Folder.name newFolder = FileService.od_name folderData
       ∧ Folder.parentId newFolder = FileService.od_parentId folderData)
  ∧
  (∀ (userId name : string) (parentId : option string),
     truthy userId = true → truthy name = true →
     ∃ newFolder,
       FileController.createFolder (Some userId) (Some name) parentId uuid now w
       = (set_folders (folders w ++ [newFolder]) w, Ok (mkResponse 201 (FolderBody newFolder)))
       ∧ Folder.parentId newFolder = FileController.orNull parentId).
Proof.
  split.
  - intros folderData. eexists. split_and!; reflexivity.
  - intros userId name parentId Huser Hname.
    unfold FileController.createFolder, FileService.createFolder. run_m.
    rewrite Huser, Hname. simpl. eexists. split; reflexivity.
Qed.

(** C6 at an empty folder table, with a parent id that matches nothing. *)
Lemma C6_createFolder_witness :
  truthy "u1" = true ∧ truthy "docs" = true
  ∧ ∃ newFolder,
      FileController.createFolder (Some "u1") (Some "docs") (Some "missing") "F1" t0 emptyWorld
      = (set_folders (folders emptyWorld ++ [newFolder]) emptyWorld,
         Ok (mkResponse 201 (FolderBody newFolder)))
      ∧ Folder.parentId newFolder = FileController.orNull (Some "missing").
Proof.
  assert (truthy "u1" = true) as H1 by reflexivity.
  assert (truthy "docs" = true) as H2 by reflexivity.
  split; [exact H1|]. split; [exact H2|].
  exact (proj2 (C6_createFolder_never_checks_parent "F1" t0 emptyWorld)
               "u1" "docs" (Some "missing") H1 H2).
Defined.

(** C6 as stated fails: no folder "missing" exists, yet creating a folder
    under it succeeds, in the service and through the controller (201). *)
Lemma C6_missing_parent_counterexample :
  outcome (FileService.getFolderById "missing" "u1") emptyWorld = Ok None
  ∧ outcome (FileService.createFolder
               (FileService.mkFolderData "u1" "docs" (Some "missing")) "F1" t0) emptyWorld
    = Ok (Folder.mk "F1" "u1" "docs" (Some "missing") (DateMs t0) (DateMs t0))
  ∧ outcome (FileController.createFolder (Some "u1") (Some "docs") (Some "missing") "F1" t0)
            emptyWorld
    = Ok (mkResponse 201
            (FolderBody (Folder.mk "F1" "u1" "docs" (Some "missing") (DateMs t0) (DateMs t0)))).
Proof. split_and!; reflexivity. Qed.

(** C7, as amended.  The local medium resolves [path.join(root, key)] and
    neither rejects nor rewrites any key.  For every key that has no [..]
    segment the resolved path lies under the storage root; such a put or
    delete changes no file outside the root and such a get returns a file
    from under the root. *)
Theorem C7_keys_without_dotdot_stay_under_root (config : Config) (key : string) :
  ".." ∉ split "/" key →
  StorageService.localStoragePath config
    `prefix_of` path_join (StorageService.localStoragePath config) key
  ∧ (∀ (fileBuffer : Buffer) (w : World) (q : Path),
       ¬ StorageService.localStoragePath config `prefix_of` q →
       disk (after (StorageService.uploadToLocalStorage config fileBuffer key) w) !! q
       = disk w !! q)
  ∧ (∀ (w : World) (q : Path),
       ¬ StorageService.localStoragePath config `prefix_of` q →
       disk (after (StorageService.deleteFromLocalStorage config key) w) !! q = disk w !! q)
  ∧ (∀ (w : World) (b : Buffer),
       outcome (StorageService.getFromLocalStorage config key) w = Ok b →
       ∃ q, StorageService.localStoragePath config `prefix_of` q ∧ disk w !! q = Some b).
Proof.
  intros Hno.
  pose proof (path_join_prefix (StorageService.localStoragePath config) key Hno) as Hpre.
  split_and!; [done| | |].
  - intros fileBuffer w q Hq.
    unfold StorageService.uploadToLocalStorage, fs_writeFile. run_m.
    destruct (backendUp w); simpl; [|done].
    apply lookup_insert_ne. intros <-. by apply Hq.
  - intros w q Hq.
    unfold StorageService.deleteFromLocalStorage, fs_unlink. run_m.
    destruct (backendUp w); simpl; [|done].
    destruct (disk w !! _) eqn:E; simpl; [|done].
    apply lookup_delete_ne. intros <-. by apply Hq.
  - intros w b.
    unfold StorageService.getFromLocalStorage, fs_readFile. run_m.
    destruct (backendUp w); simpl; [|done].
    destruct (disk w !! _) eqn:E; simpl; [|done].
    intros [= <-]. eauto.
Qed.

(** C7 at the key the upload of the worked installation produced. *)
Lemma C7_keys_without_dotdot_witness :
  (".." ∉ split "/" "u1/k1-a.txt")
  ∧ (StorageService.localStoragePath demoConfig)
      `prefix_of` (path_join (StorageService.localStoragePath demoConfig) "u1/k1-a.txt").
Proof.
  assert (".." ∉ split "/" "u1/k1-a.txt") as Hno by compute_done.
  split; [exact Hno|].
  apply (C7_keys_without_dotdot_stay_under_root demoConfig "u1/k1-a.txt" Hno).
Defined.

(** C7 as stated fails: with root /srv/app/uploads the key "../secret.txt"
    resolves to /srv/app/secret.txt, which is not under the root; a put with
    that key succeeds and writes there, a get with it reads from there. *)
Lemma C7_traversal_counterexample :
  StorageService.localStoragePath demoConfig = ["srv"; "app"; "uploads"]
  ∧ path_join (StorageService.localStoragePath demoConfig) escapingKey
    = ["srv"; "app"; "secret.txt"]
  ∧ ¬ StorageService.localStoragePath demoConfig
      `prefix_of` path_join (StorageService.localStoragePath demoConfig) escapingKey
  ∧ outcome (StorageService.uploadToLocalStorage demoConfig secretBuf escapingKey) emptyWorld
    = Ok escapingKey
  ∧ disk (after (StorageService.uploadToLocalStorage demoConfig secretBuf escapingKey)
                emptyWorld) !! ["srv"; "app"; "secret.txt"] = Some secretBuf
  ∧ outcome (StorageService.getFromLocalStorage demoConfig escapingKey)
            (set_disk {[ ["srv"; "app"; "secret.txt"] := secretBuf ]} emptyWorld)
    = Ok secretBuf.
Proof.
  split_and!; try (vm_compute; reflexivity).
  intros [k Hk]. vm_compute in Hk. discriminate Hk.
Qed.

(** C8.  The specification asks that deleting an absent key is not an error
    for either medium.  On object storage it is not; on the local medium
    [unlink] throws ENOENT and [StorageService.deleteFile] fails with it: on
    a key that was never stored, and on the second of two deletes of a key
    that was. *)
Theorem C8_local_delete_of_absent_key_throws :
  disk emptyWorld !! path_join (StorageService.localStoragePath demoConfig) "u1/k1-a.txt" = None
  ∧ outcome (StorageService.deleteFile demoConfig "u1/k1-a.txt") emptyWorld = Throw "ENOENT"
  ∧ outcome (StorageService.deleteFile demoObjectConfig "u1/k1-a.txt") emptyWorld = Ok tt
  ∧ outcome (StorageService.deleteFile demoConfig "u1/k1-a.txt") wUploaded = Ok tt
  ∧ outcome (StorageService.deleteFile demoConfig "u1/k1-a.txt")
            (after (StorageService.deleteFile demoConfig "u1/k1-a.txt") wUploaded)
    = Throw "ENOENT".
Proof. split_and!; vm_compute; reflexivity. Qed.

(** C9, as amended.  With tokens unique in the share-link table,
    [getShareLinkByToken] returns a link exactly when a link with that token
    exists and passes the expiry test, where passing means [expiresAt] is
    null or the current time is not later than [expiresAt] (equality still
    passes).  In every other case, a never-issued token and an expired one
    alike, the result is the same [null]; the table is never changed. *)
Theorem C9_resolve_iff_present_and_valid (w : World) (token : string) (now : Z) :
  NoDup (ShareLink.token <$> shareLinks w) →
  (∀ l, FileService.getShareLinkByToken token now w = (w, Ok (Some l))
        ↔ l ∈ shareLinks w ∧ ShareLink.token l = token ∧ validAt now l)
  ∧ (FileService.getShareLinkByToken token now w = (w, Ok None)
        ↔ ¬ ∃ l, l ∈ shareLinks w ∧ ShareLink.token l = token ∧ validAt now l).
Proof.
  intros Hnd. rewrite getShareLinkByToken_eval.
  destruct (find _ _) as [s|] eqn:Hfind.
  - apply find_Some in Hfind as [Hs Htok%bool_decide_eq_true].
    assert (∀ l, l ∈ shareLinks w → ShareLink.token l = token → l = s) as Huniq.
    { intros l Hl Hlt. apply (NoDup_fmap_eq ShareLink.token (shareLinks w)); congruence. }
    split.
    + intros l. case_decide; split.
      * intros [= <-]. done.
      * intros (Hl & Hlt & _). by rewrite (Huniq l Hl Hlt).
      * done.
      * intros (Hl & Hlt & Hv). by rewrite (Huniq l Hl Hlt) in Hv.
    + case_decide; split.
      * done.
      * intros Hno. destruct Hno. by exists s.
      * intros _ (l & Hl & Hlt & Hv). by rewrite (Huniq l Hl Hlt) in Hv.
      * done.
  - rewrite find_None in Hfind. split.
    + intros l. split; [done|]. intros (Hl & Hlt & _).
      specialize (Hfind l Hl). by rewrite bool_decide_eq_false in Hfind.
    + split; [|done]. intros _ (l & Hl & Hlt & _).
      specialize (Hfind l Hl). by rewrite bool_decide_eq_false in Hfind.
Qed.

(** C9 at the table holding the one link that expires at [t0], looked up
    one second later. *)
Lemma C9_resolve_witness :
  NoDup (ShareLink.token <$> shareLinks wBoundary)
  ∧ (FileService.getShareLinkByToken "tok2" (t0 + 1000) wBoundary = (wBoundary, Ok None)
     ↔ ¬ ∃ l, l ∈ shareLinks wBoundary ∧ ShareLink.token l = "tok2"
              ∧ validAt (t0 + 1000) l).
Proof.
  assert (NoDup (ShareLink.token <$> shareLinks wBoundary)) as Hnd
    by compute_done.
  split; [exact Hnd|].
  apply (C9_resolve_iff_present_and_valid wBoundary "tok2" (t0 + 1000) Hnd).
Defined.

(** C9 as stated fails at the boundary: at the very instant [expiresAt]
    the link is still returned, although [expiresAt] is not strictly later
    than the current time. *)
Lemma C9_boundary_counterexample :
  FileService.getShareLinkByToken "tok2" t0 wBoundary = (wBoundary, Ok (Some boundaryLink))
  ∧ ShareLink.expiresAt boundaryLink = Some (DateMs t0)
  ∧ ¬ validStrictlyLater t0 boundaryLink.
Proof.
  split_and!; [vm_compute; reflexivity|reflexivity|].
  unfold validStrictlyLater. simpl. lia.
Qed.

(** C10.  For every file (folder) present in the table, [updateFile]
    ([updateFolder]) succeeds and replaces the record at the index found by
    one whose [updatedAt] is the current time and whose [id], [userId],
    [size], [mimeType], [key] and [createdAt] (for a folder: [id], [userId]
    and [createdAt]) are those of the old record, whatever the request; when
    the request's name is the empty string the stored name is the old one. *)
Theorem C10_update_frame (w : World) (now : Z) :
  (∀ fileId data,
     (∃ f, f ∈ files w ∧ File.id f = fileId) →
     ∃ i old new,
       findWithIndex (λ f, bool_decide (File.id f = fileId)) (files w) = Some (i, old)
       ∧ files w !! i = Some old
       ∧ FileService.updateFile fileId data now w
         = (set_files (<[i := new]> (files w)) w, Ok new)
       ∧ (FileService.fu_name data = Some "" → File.name new = File.name old)
       ∧ File.updatedAt new = DateMs now
       ∧ File.id new = File.id old ∧ File.userId new = File.userId old
       ∧ File.size new = File.size old ∧ File.mimeType new = File.mimeType old
       ∧ File.key new = File.key old ∧ File.createdAt new = File.createdAt old)
  ∧
  (∀ folderId data,
     (∃ f, f ∈ folders w ∧ Folder.id f = folderId) →
     ∃ i old new,
       findWithIndex (λ f, bool_decide (Folder.id f = folderId)) (folders w) = Some (i, old)
       ∧ folders w !! i = Some old
       ∧ FileService.updateFolder folderId data now w
         = (set_folders (<[i := new]> (folders w)) w, Ok new)
       ∧ (FileService.ou_name data = Some "" → Folder.name new = Folder.name old)
       ∧ Folder.updatedAt new = DateMs now
       ∧ Folder.id new = Folder.id old ∧ Folder.userId new = Folder.userId old
       ∧ Folder.createdAt new = Folder.createdAt old).
Proof.
  split.
  - intros fileId data (f & Hin & Hid).
    destruct (findWithIndex_exists (λ f, bool_decide (File.id f = fileId)) (files w) f)
      as (i & old & Hfind); [done|by apply bool_decide_eq_true|].
    pose proof (findWithIndex_Some _ _ _ _ Hfind) as (Hi & _ & _).
    exists i, old. unfold FileService.updateFile. run_m. rewrite Hfind.
    eexists. split_and!; try reflexivity; [done|].
    intros ->. reflexivity.
  - intros folderId data (f & Hin & Hid).
    destruct (findWithIndex_exists (λ f, bool_decide (Folder.id f = folderId)) (folders w) f)
      as (i & old & Hfind); [done|by apply bool_decide_eq_true|].
    pose proof (findWithIndex_Some _ _ _ _ Hfind) as (Hi & _ & _).
    exists i, old. unfold FileService.updateFolder. run_m. rewrite Hfind.
    eexists. split_and!; try reflexivity; [done|].
    intros ->. reflexivity.
Qed.

(** C10 at the worked installation: renaming file f1, and folder F1, to
    the empty string. *)
Lemma C10_update_frame_witness :
  ((∃ f, f ∈ files wUploaded ∧ File.id f = "f1")
   ∧ ∃ i old new,
       findWithIndex (λ f, bool_decide (File.id f = "f1")) (files wUploaded) = Some (i, old)
       ∧ files wUploaded !! i = Some old
       ∧ FileService.updateFile "f1" (FileService.mkFileUpdate (Some "") None) (t0 + 5) wUploaded
         = (set_files (<[i := new]> (files wUploaded)) wUploaded, Ok new)
       ∧ (Some "" = Some "" → File.name new = File.name old)
       ∧ File.updatedAt new = DateMs (t0 + 5)
       ∧ File.id new = File.id old ∧ File.userId new = File.userId old
       ∧ File.size new = File.size old ∧ File.mimeType new = File.mimeType old
       ∧ File.key new = File.key old ∧ File.createdAt new = File.createdAt old)
  ∧
  ((∃ f, f ∈ folders wUploaded ∧ Folder.id f = "F1")
   ∧ ∃ i old new,
       findWithIndex (λ f, bool_decide (Folder.id f = "F1")) (folders wUploaded) = Some (i, old)
       ∧ folders wUploaded !! i = Some old
       ∧ FileService.updateFolder "F1" (FileService.mkFolderUpdate (Some "") None) (t0 + 5)
                                  wUploaded
         = (set_folders (<[i := new]> (folders wUploaded)) wUploaded, Ok new)
       ∧ (Some "" = Some "" → Folder.name new = Folder.name old)
       ∧ Folder.updatedAt new = DateMs (t0 + 5)
       ∧ Folder.id new = Folder.id old ∧ Folder.userId new = Folder.userId old
       ∧ Folder.createdAt new = Folder.createdAt old).
Proof.
  assert (∃ f, f ∈ files wUploaded ∧ File.id f = "f1") as Hfile.
  { exists demoFile. split; [|reflexivity].
    replace (files wUploaded) with [demoFile] by (vm_compute; reflexivity). left. }
  assert (∃ f, f ∈ folders wUploaded ∧ Folder.id f = "F1") as Hfolder.
  { exists (Folder.mk "F1" "u1" "docs" None (DateMs t0) (DateMs t0)). split; [|reflexivity].
    replace (folders wUploaded)
      with [Folder.mk "F1" "u1" "docs" None (DateMs t0) (DateMs t0)]
      by (vm_compute; reflexivity).
    left. }
  split; (split; [assumption|]).
  - exact (proj1 (C10_update_frame wUploaded (t0 + 5)) "f1"
                 (FileService.mkFileUpdate (Some "") None) Hfile).
  - exact (proj2 (C10_update_frame wUploaded (t0 + 5)) "F1"
                 (FileService.mkFolderUpdate (Some "") None) Hfolder).
Defined.

(* ========================================================================= *)
(** * Further properties of the services *)

(** X1.  A successful [FileService.deleteFile] leaves exactly the share
    links whose [fileId] is not the deleted file's, in their order. *)
Theorem deleteFile_removes_links_of_file (fileId : string) (w : World) :
  outcome (FileService.deleteFile fileId) w = Ok tt →
  shareLinks (after (FileService.deleteFile fileId) w)
  = filter (λ l, ShareLink.fileId l ≠ fileId) (shareLinks w).
Proof.
  unfold FileService.deleteFile. run_m.
  destruct (findIndex _ _); simpl; [|done]. intros _.
  rewrite removeMatching_filter.
  apply list_filter_iff. intros l. by rewrite bool_decide_eq_false.
Qed.

(** X1 at the worked installation. *)
Lemma deleteFile_removes_links_witness :
  outcome (FileService.deleteFile "f1") wShared = Ok tt
  ∧ shareLinks (after (FileService.deleteFile "f1") wShared)
    = filter (λ l, ShareLink.fileId l ≠ "f1") (shareLinks wShared).
Proof.
  assert (outcome (FileService.deleteFile "f1") wShared = Ok tt) as H
    by (vm_compute; reflexivity).
  split; [exact H|]. exact (deleteFile_removes_links_of_file "f1" wShared H).
Defined.

(** X30.  When the caller owns the folder and the recursive helper returns
    [subfolderIds], [FileService.deleteFolder] succeeds, keeps exactly the
    folders whose id is neither the folder's nor in [subfolderIds], and keeps
    exactly the files whose [folderId || ''] is neither. *)
Theorem deleteFolder_removes_closure
    (fuel : nat) (folderId userId : string) (w : World) (subfolderIds : list string) :
  (∃ f, f ∈ folders w ∧ Folder.id f = folderId ∧ Folder.userId f = userId) →
  FileService.getAllSubfolderIds fuel (folders w) folderId = Some subfolderIds →
  outcome (FileService.deleteFolder fuel folderId userId) w = Ok tt
  ∧ folders (after (FileService.deleteFolder fuel folderId userId) w)
    = filter (λ f, Folder.id f ∉ subfolderIds ++ [folderId]) (folders w)
  ∧ files (after (FileService.deleteFolder fuel folderId userId) w)
    = filter (λ f, default "" (File.folderId f) ∉ subfolderIds ++ [folderId]) (files w).
Proof.
  intros (f & Hin & Hid & Huser) Hclosure.
  destruct (findIndex_exists
              (λ f, bool_decide (Folder.id f = folderId) && bool_decide (Folder.userId f = userId))
              (folders w) f Hin) as [i Hi].
  { by rewrite !bool_decide_eq_true_2. }
  unfold FileService.deleteFolder. run_m. rewrite Hi. simpl. rewrite Hclosure. simpl.
  rewrite !removeMatching_filter.
  split_and!; [done| |]; apply list_filter_iff; intros x; by rewrite bool_decide_eq_false.
Qed.

(** X30 at the worked installation. *)
Lemma deleteFolder_removes_closure_witness :
  (∃ f, f ∈ folders wShared ∧ Folder.id f = "F1" ∧ Folder.userId f = "u1")
  ∧ FileService.getAllSubfolderIds 8 (folders wShared) "F1" = Some []
  ∧ outcome (FileService.deleteFolder 8 "F1" "u1") wShared = Ok tt
  ∧ folders (after (FileService.deleteFolder 8 "F1" "u1") wShared)
    = filter (λ f, Folder.id f ∉ [] ++ ["F1"]) (folders wShared)
  ∧ files (after (FileService.deleteFolder 8 "F1" "u1") wShared)
    = filter (λ f, default "" (File.folderId f) ∉ [] ++ ["F1"]) (files wShared).
Proof.
  assert (∃ f, f ∈ folders wShared ∧ Folder.id f = "F1" ∧ Folder.userId f = "u1") as Hex.
  { exists (Folder.mk "F1" "u1" "docs" None (DateMs t0) (DateMs t0)).
    split; [|split; reflexivity].
    replace (folders wShared) with [Folder.mk "F1" "u1" "docs" None (DateMs t0) (DateMs t0)]
      by (vm_compute; reflexivity).
    left. }
  assert (FileService.getAllSubfolderIds 8 (folders wShared) "F1" = Some []) as Hcl
    by (vm_compute; reflexivity).
  split; [exact Hex|]. split; [exact Hcl|].
  exact (deleteFolder_removes_closure 8 "F1" "u1" wShared [] Hex Hcl).
Defined.

(** X6.  An authenticated upload that would take the owner past the fixed
    10 GiB quota is answered 400 "Storage quota exceeded" and changes
    nothing. *)
Theorem uploadFile_over_quota_rejected
    (config : Config) (w : World) (userId : string) (f : UploadedFile.t)
    (folderId : option string) (keyUuid fileUuid : string) (now : Z) :
  truthy userId = true →
  10 * 1024 * 1024 * 1024 < default 0 (userStorageUsage w !! userId) + UploadedFile.size f →
  FileController.uploadFile config (Some userId) (Some f) folderId keyUuid fileUuid now w
  = (w, Ok (mkResponse 400 (ErrorBody "Storage quota exceeded"))).
Proof.
  intros Huser Hquota. unfold FileController.uploadFile, StorageService.getUserStorageUsage.
  run_m. rewrite Huser. simpl. by rewrite bool_decide_eq_true_2.
Qed.

(** X6 for an owner whose counter stands at the quota. *)
Lemma uploadFile_over_quota_witness :
  truthy "u1" = true
  ∧ 10 * 1024 * 1024 * 1024
    < default 0 (userStorageUsage wFull !! "u1") + UploadedFile.size demoUpload
  ∧ FileController.uploadFile demoConfig (Some "u1") (Some demoUpload) None "k1" "f1" t0 wFull
    = (wFull, Ok (mkResponse 400 (ErrorBody "Storage quota exceeded"))).
Proof.
  assert (truthy "u1" = true) as H1 by reflexivity.
  assert (10 * 1024 * 1024 * 1024
          < default 0 (userStorageUsage wFull !! "u1") + UploadedFile.size demoUpload) as H2
    by (vm_compute; reflexivity).
  split; [exact H1|]. split; [exact H2|].
  exact (uploadFile_over_quota_rejected demoConfig wFull "u1" demoUpload None "k1" "f1" t0 H1 H2).
Defined.

(** The counter of [other] after [updateUserStorageUsage userId]. *)
Lemma updateUserStorageUsage_lookup (userId other : string) (sizeChange : Z) (w : World) :
  default 0 (userStorageUsage (after (StorageService.updateUserStorageUsage userId sizeChange) w)
             !! other)
  = if decide (other = userId)
    then Z.max 0 (default 0 (userStorageUsage w !! userId) + sizeChange)
    else default 0 (userStorageUsage w !! other).
Proof.
  unfold StorageService.updateUserStorageUsage. run_m.
  destruct (decide (other = userId)) as [->|Hne].
  - repeat case_bool_decide; simplify_map_eq; simpl in *; try lia;
      repeat match goal with
             | H : context [default 0 (?m !! ?k)] |- _ => destruct (m !! k) eqn:?; simpl in *
             | |- context [default 0 (?m !! ?k)] => destruct (m !! k) eqn:?; simpl in *
             end; simplify_map_eq; lia.
  - repeat case_bool_decide; by simplify_map_eq.
Qed.

(** X8.  [updateUserStorageUsage userId delta] sets the [usedBytes] that is
    reported for [userId] to [max 0 (old + delta)] and changes the report of
    no other user. *)
Theorem updateUserStorageUsage_clamped (userId other : string) (sizeChange : Z) (w : World) :
  reportedUsedBytes other (after (StorageService.updateUserStorageUsage userId sizeChange) w)
  = if decide (other = userId)
    then Some (Z.max 0 (default 0 (reportedUsedBytes userId w) + sizeChange))
    else reportedUsedBytes other w.
Proof.
  pose proof (updateUserStorageUsage_lookup userId other sizeChange w) as Hl.
  unfold reportedUsedBytes, outcome, StorageService.getUserStorageUsage, gets in *.
  simpl in *. rewrite Hl. by case_decide.
Qed.

(** While the medium is down [StorageService.uploadFile] throws, having
    already run the usage update. *)
Lemma storage_uploadFile_down (config : Config) (fileBuffer : Buffer)
    (options : StorageService.StorageOptions) (uuid : string) (w : World) :
  backendUp w = false →
  ∃ e, StorageService.uploadFile config fileBuffer options uuid w
       = (after (StorageService.updateUserStorageUsage (StorageService.userId options)
                                                       (buffer_length fileBuffer)) w,
          Throw e).
Proof.
  intros Hdown.
  unfold StorageService.uploadFile, StorageService.uploadToS3,
    StorageService.uploadToLocalStorage, StorageService.s3Client, s3_put, fs_writeFile,
    StorageService.updateUserStorageUsage.
  run_m. destruct (StorageService.isObjectStorage config); simpl; rewrite Hdown; eauto.
Qed.

(** X9.  The run of C4 in general: for an authenticated upload within
    quota while the medium is down, the controller answers 500, the files
    table is as before, and the reported [usedBytes] of the owner has become
    [max 0 (old + buffer.length)]. *)
Theorem uploadFile_failed_put_in_general
    (config : Config) (w : World) (userId : string) (f : UploadedFile.t)
    (folderId : option string) (keyUuid fileUuid : string) (now : Z) :
  truthy userId = true →
  backendUp w = false →
  default 0 (userStorageUsage w !! userId) + UploadedFile.size f ≤ 10 * 1024 * 1024 * 1024 →
  outcome (FileController.uploadFile config (Some userId) (Some f) folderId keyUuid fileUuid now) w
  = Ok (mkResponse 500 (ErrorBody "Failed to upload file"))
  ∧ files (after (FileController.uploadFile config (Some userId) (Some f) folderId
                                            keyUuid fileUuid now) w) = files w
  ∧ reportedUsedBytes userId
      (after (FileController.uploadFile config (Some userId) (Some f) folderId
                                        keyUuid fileUuid now) w)
    = Some (Z.max 0 (default 0 (reportedUsedBytes userId w)
                     + buffer_length (UploadedFile.buffer f))).
Proof.
  intros Huser Hdown Hquota.
  pose proof (updateUserStorageUsage_lookup userId userId
                (buffer_length (UploadedFile.buffer f)) w) as Hclamp.
  rewrite decide_True in Hclamp by done.
  destruct (storage_uploadFile_down config (UploadedFile.buffer f)
              (StorageService.mkStorageOptions userId (UploadedFile.originalname f)
                                               (UploadedFile.mimetype f))
              keyUuid w Hdown) as [e He].
  simpl in He.
  set (w1 := after (StorageService.updateUserStorageUsage userId
                      (buffer_length (UploadedFile.buffer f))) w) in *.
  assert (FileController.uploadFile config (Some userId) (Some f) folderId keyUuid fileUuid now w
          = (w1, Ok (mkResponse 500 (ErrorBody "Failed to upload file")))) as Hrun.
  { unfold FileController.uploadFile. rewrite Huser. cbn [negb].
    unfold try_catch, bind, StorageService.getUserStorageUsage, gets.
    cbn [StorageService.usedBytes StorageService.totalBytes].
    rewrite bool_decide_eq_false_2 by lia. by rewrite He. }
  unfold outcome, after at 1 2. rewrite Hrun. cbn [fst snd].
  split_and!; [done|by subst w1|].
  unfold reportedUsedBytes, outcome, StorageService.getUserStorageUsage, gets.
  cbn [snd StorageService.usedBytes default]. by rewrite Hclamp.
Qed.

(** X9 at the worked installation with the medium down. *)
Lemma uploadFile_failed_put_witness :
  truthy "u1" = true
  ∧ backendUp (down wFolder) = false
  ∧ default 0 (userStorageUsage (down wFolder) !! "u1") + UploadedFile.size demoUpload
    ≤ 10 * 1024 * 1024 * 1024
  ∧ outcome (FileController.uploadFile demoConfig (Some "u1") (Some demoUpload) (Some "F1")
                                       "k1" "f1" t0) (down wFolder)
    = Ok (mkResponse 500 (ErrorBody "Failed to upload file")).
Proof.
  assert (truthy "u1" = true) as H1 by reflexivity.
  assert (backendUp (down wFolder) = false) as H2 by reflexivity.
  assert (default 0 (userStorageUsage (down wFolder) !! "u1") + UploadedFile.size demoUpload
          ≤ 10 * 1024 * 1024 * 1024) as H3 by (vm_compute; discriminate).
  split_and!; [exact H1|exact H2|exact H3|].
  apply (uploadFile_failed_put_in_general demoConfig (down wFolder) "u1" demoUpload
           (Some "F1") "k1" "f1" t0 H1 H2 H3).
Defined.

(* ========================================================================= *)
(** * The folder hierarchy *)

Lemma getAllSubfolderIds_unfold (fuel : nat) (allFolders : list Folder.t) (folderId : string) :
  FileService.getAllSubfolderIds (S fuel) allFolders folderId
  = foldl (subfolderStep fuel allFolders) (Some [])
          (filter (λ f, Folder.parentId f = Some folderId) allFolders).
Proof. reflexivity. Qed.

Lemma subfolderStep_None (fuel : nat) (allFolders subs : list Folder.t) :
  foldl (subfolderStep fuel allFolders) None subs = None.
Proof. induction subs as [|s subs IH]; [done|]. simpl. apply IH. Qed.

(** What the loop returns, in terms of the results of the recursive calls. *)
Lemma subfolderStep_foldl_Some (fuel : nat) (allFolders subs : list Folder.t)
    (acc res : list string) :
  foldl (subfolderStep fuel allFolders) (Some acc) subs = Some res ↔
  ∃ childLists : list (list string),
    Forall2 (λ s l, FileService.getAllSubfolderIds fuel allFolders (Folder.id s) = Some l)
            subs childLists
    ∧ res = acc ++ concat (zip_with (λ s l, Folder.id s :: l) subs childLists).
Proof.
  revert acc res. induction subs as [|s subs IH]; intros acc res; simpl.
  - split.
    + intros [= <-]. exists []. split; [constructor|]. by rewrite app_nil_r.
    + intros (cl & Hall & ->). apply Forall2_nil_inv_l in Hall as ->. simpl.
      by rewrite app_nil_r.
  - destruct (FileService.getAllSubfolderIds fuel allFolders (Folder.id s)) as [l|] eqn:Hs;
      simpl.
    + rewrite IH. split.
      * intros (cl & Hall & ->). exists (l :: cl). split; [by constructor|].
        simpl. by rewrite <-!app_assoc.
      * intros (cl & Hall & ->). apply Forall2_cons_inv_l in Hall as (l' & cl' & Hl & Hall & ->).
        rewrite Hs in Hl. injection Hl as <-. exists cl'. split; [done|].
        simpl. by rewrite <-!app_assoc.
    + rewrite subfolderStep_None. split; [done|].
      intros (cl & Hall & _). apply Forall2_cons_inv_l in Hall as (l' & cl' & Hl & _ & _).
      by rewrite Hs in Hl.
Qed.

Lemma descendantOf_trans (allFolders : list Folder.t) (a b c : string) :
  descendantOf allFolders a b → descendantOf allFolders b c → descendantOf allFolders a c.
Proof.
  intros Hab Hbc. induction Hbc as [f Hf Hp|f x Hbx IH Hf Hp].
  - by eapply descendant_step.
  - by eapply descendant_step.
Qed.

(** Once the helper returns, it returns the same list at any greater depth. *)
Lemma getAllSubfolderIds_fuel_monotone
    (fuel fuel' : nat) (allFolders : list Folder.t) (folderId : string) (ids : list string) :
  FileService.getAllSubfolderIds fuel allFolders folderId = Some ids →
  (fuel ≤ fuel')%nat →
  FileService.getAllSubfolderIds fuel' allFolders folderId = Some ids.
Proof.
  revert fuel' folderId ids. induction fuel as [|fuel IH]; intros fuel' folderId ids; [done|].
  intros Hrun Hle. destruct fuel' as [|fuel']; [lia|].
  rewrite getAllSubfolderIds_unfold in *.
  apply subfolderStep_foldl_Some in Hrun as (cl & Hall & ->).
  apply subfolderStep_foldl_Some. exists cl. split; [|done].
  eapply Forall2_impl; [exact Hall|]. intros s l Hs. apply IH; [done|lia].
Qed.

(** What the helper returns is the set of ids below [folderId]. *)
Lemma getAllSubfolderIds_closure
    (fuel : nat) (allFolders : list Folder.t) (folderId : string) (ids : list string) :
  FileService.getAllSubfolderIds fuel allFolders folderId = Some ids →
  ∀ x, x ∈ ids ↔ descendantOf allFolders folderId x.
Proof.
  revert folderId ids. induction fuel as [|fuel IH]; intros folderId ids; [done|].
  rewrite getAllSubfolderIds_unfold. intros (cl & Hall & ->)%subfolderStep_foldl_Some.
  simpl.
  set (subs := filter (λ f, Folder.parentId f = Some folderId) allFolders) in *.
  assert (∀ x, x ∈ concat (zip_with (λ s l, Folder.id s :: l) subs cl) ↔
               ∃ s l, s ∈ subs
                      ∧ FileService.getAllSubfolderIds fuel allFolders (Folder.id s) = Some l
                      ∧ (x = Folder.id s ∨ x ∈ l)) as Hmem.
  { clear IH. intros x. induction Hall as [|s l subs' cl' Hs Hall' IHall]; simpl.
    - split; [by intros ?%elem_of_nil|]. by intros (s & l & ?%elem_of_nil & _).
    - rewrite elem_of_cons, elem_of_app, IHall. split.
      + intros [->|[Hx|(s' & l' & Hs' & Hl' & Hx)]].
        * exists s, l. split_and!; [left|done|by left].
        * exists s, l. split_and!; [left|done|by right].
        * exists s', l'. split_and!; [by right|done|done].
      + intros (s' & l' & [->|Hs']%elem_of_cons & Hl' & Hx).
        * rewrite Hs in Hl'. injection Hl' as <-. destruct Hx as [->|Hx]; auto.
        * right. right. eauto 6. }
  assert (∀ s, s ∈ subs ↔ s ∈ allFolders ∧ Folder.parentId s = Some folderId) as Hsubs.
  { intros s. subst subs. rewrite list_elem_of_filter. tauto. }
  assert (∀ s, s ∈ subs → ∃ l, FileService.getAllSubfolderIds fuel allFolders (Folder.id s) = Some l)
    as Hran.
  { intros s Hs. clear -Hall Hs. induction Hall as [|s' l subs' cl' Hs' Hall' IHall].
    - by apply elem_of_nil in Hs.
    - apply elem_of_cons in Hs as [->|Hs]; eauto. }
  intros x. rewrite Hmem. split.
  - intros (s & l & [Hs Hp]%Hsubs & Hl & [->|Hx]).
    + by apply descendant_child.
    + apply (descendantOf_trans _ _ (Folder.id s)); [by apply descendant_child|].
      by apply (IH _ _ Hl).
  - intros Hdesc. induction Hdesc as [f Hf Hp|f y Hy IHy Hf Hp].
    + destruct (Hran f) as [l Hl]; [by apply Hsubs|].
      exists f, l. split_and!; [by apply Hsubs|done|by left].
    + destruct IHy as (s & l & Hs & Hl & Hy').
      exists s, l. split_and!; [done..|]. right.
      apply (IH _ _ Hl). destruct Hy' as [->|Hy'].
      * by apply descendant_child.
      * eapply descendant_step; [|done..]. by apply (IH _ _ Hl).
Qed.

(** On a table with a depth assignment the helper returns. *)
Lemma getAllSubfolderIds_returns_on_ranked
    (rank : string → nat) (allFolders : list Folder.t) (folderId : string) (fuel : nat) :
  (∀ f p, f ∈ allFolders → Folder.parentId f = Some p → (rank (Folder.id f) < rank p)%nat) →
  (rank folderId < fuel)%nat →
  ∃ ids, FileService.getAllSubfolderIds fuel allFolders folderId = Some ids.
Proof.
  intros Hrank. revert folderId. induction fuel as [|fuel IH]; intros folderId Hlt; [lia|].
  rewrite getAllSubfolderIds_unfold.
  assert (∀ subs : list Folder.t,
            (∀ s, s ∈ subs → s ∈ allFolders ∧ Folder.parentId s = Some folderId) →
            ∀ acc, ∃ ids, foldl (subfolderStep fuel allFolders) (Some acc) subs = Some ids)
    as Hloop.
  { induction subs as [|s subs IHsubs]; intros Hsubs acc; simpl; [eauto|].
    destruct (Hsubs s) as [Hs Hp]; [left|].
    destruct (IH (Folder.id s)) as [l Hl].
    { specialize (Hrank s folderId Hs Hp). lia. }
    rewrite Hl. simpl. apply IHsubs. intros s' Hs'. apply Hsubs. by right. }
  apply Hloop. intros s Hs%list_elem_of_filter. tauto.
Qed.

(** X10.  Whenever [getAllSubfolderIds] returns, the ids it returns are
    exactly the ids of the folders that lie below [folderId] by parent links:
    every direct or indirect subfolder is listed and nothing else is. *)
Theorem getAllSubfolderIds_descendants
    (fuel : nat) (allFolders : list Folder.t) (folderId : string) (ids : list string) :
  FileService.getAllSubfolderIds fuel allFolders folderId = Some ids →
  (∀ x, descendantOf allFolders folderId x → x ∈ ids)
  ∧ (∀ x, x ∈ ids → descendantOf allFolders folderId x).
Proof.
  intros Hrun. split; intros x; by apply (getAllSubfolderIds_closure _ _ _ _ Hrun).
Qed.

(** X10 at the table with folder A and its child B. *)
Lemma getAllSubfolderIds_descendants_witness :
  FileService.getAllSubfolderIds 8 treeFolders "A" = Some ["B"]
  ∧ (∀ x, descendantOf treeFolders "A" x → x ∈ ["B"])
  ∧ (∀ x, x ∈ ["B"] → descendantOf treeFolders "A" x).
Proof.
  assert (FileService.getAllSubfolderIds 8 treeFolders "A" = Some ["B"]) as Hrun
    by (vm_compute; reflexivity).
  split; [exact Hrun|].
  exact (getAllSubfolderIds_descendants 8 treeFolders "A" ["B"] Hrun).
Defined.

(** X11.  On a folder table without cycles (every folder sits strictly lower
    than its parent in some depth assignment [rank]) the recursion of
    [getAllSubfolderIds] returns, with the same list at every call depth
    above [rank folderId]. *)
Theorem getAllSubfolderIds_terminates
    (rank : string → nat) (allFolders : list Folder.t) (folderId : string) :
  (∀ f p, f ∈ allFolders → Folder.parentId f = Some p → (rank (Folder.id f) < rank p)%nat) →
  ∃ ids, ∀ fuel, (rank folderId < fuel)%nat →
                 FileService.getAllSubfolderIds fuel allFolders folderId = Some ids.
Proof.
  intros Hrank.
  destruct (getAllSubfolderIds_returns_on_ranked rank allFolders folderId
              (S (rank folderId)) Hrank) as [ids Hids]; [lia|].
  exists ids. intros fuel Hfuel.
  apply (getAllSubfolderIds_fuel_monotone (S (rank folderId))); [done|lia].
Qed.

Lemma treeRank_decreases (f : Folder.t) (p : string) :
  f ∈ treeFolders → Folder.parentId f = Some p →
  (treeRank (Folder.id f) < treeRank p)%nat.
Proof.
  intros Hf Hp. unfold treeFolders in Hf.
  apply elem_of_cons in Hf as [->|Hf]; [discriminate Hp|].
  apply list_elem_of_singleton in Hf as ->. injection Hp as <-. vm_compute. lia.
Defined.

(** X11 at the table with folder A and its child B. *)
Lemma getAllSubfolderIds_terminates_witness :
  (∀ f p, f ∈ treeFolders → Folder.parentId f = Some p →
          (treeRank (Folder.id f) < treeRank p)%nat)
  ∧ ∃ ids, ∀ fuel, (treeRank "A" < fuel)%nat →
                   FileService.getAllSubfolderIds fuel treeFolders "A" = Some ids.
Proof.
  split; [exact treeRank_decreases|].
  exact (getAllSubfolderIds_terminates treeRank treeFolders "A" treeRank_decreases).
Defined.







(* ========================================================================= *)
(** * Listing and pagination *)

Lemma jsSlice_nonneg {A} (l : list A) (startIndex count : Z) :
  0 ≤ startIndex → 0 ≤ count →
  jsSlice l startIndex (startIndex + count)
  = take (Z.to_nat count) (drop (Z.to_nat startIndex) l).
Proof.
  intros Hs Hc. unfold jsSlice.
  rewrite !bool_decide_eq_false_2 by lia.
  destruct (decide (startIndex ≤ Z.of_nat (length l))) as [Hle|Hgt].
  - rewrite (Z.min_l startIndex) by lia.
    destruct (decide (startIndex + count ≤ Z.of_nat (length l))) as [Hle'|Hgt'].
    + rewrite Z.min_l by lia. f_equal. lia.
    + rewrite Z.min_r by lia.
      rewrite !take_ge; [done|rewrite length_drop; lia|rewrite length_drop; lia].
  - rewrite !Z.min_r by lia.
    rewrite !drop_ge by lia. by rewrite !take_nil.
Qed.

Lemma jsSlice_sublist {A} (l : list A) (startIndex endIndex : Z) (x : A) :
  x ∈ jsSlice l startIndex endIndex → x ∈ l.
Proof.
  unfold jsSlice. intros Hx. eapply subseteq_drop, subseteq_take, Hx.
Qed.

Section listing.
Variable arraySort : string → FileListing.SortOrder → list File.t → list File.t.
Hypothesis arraySort_perm : ∀ sortBy sortOrder l, arraySort sortBy sortOrder l ≡ₚ l.

(** [listFiles] in one step: the selected files, sorted, then sliced. *)
Lemma listFiles_run (options : FileListing.ListOptions) (w : World) :
  FileListing.listFiles arraySort options w
  = (w, Ok (FileListing.mkListResult
              (jsSlice (arraySort (FileListing.lo_sortBy options)
                                  (FileListing.lo_sortOrder options)
                                  (matching (FileListing.lo_userId options)
                                            (FileListing.lo_folderId options) w))
                       ((FileListing.lo_page options - 1) * FileListing.lo_limit options)
                       ((FileListing.lo_page options - 1) * FileListing.lo_limit options
                        + FileListing.lo_limit options))
              (Z.of_nat (length (matching (FileListing.lo_userId options)
                                          (FileListing.lo_folderId options) w)))
              (FileListing.lo_page options) (FileListing.lo_limit options))).
Proof.
  unfold FileListing.listFiles, gets.
  assert (match FileListing.lo_folderId options with
          | Some folderId =>
              filter (λ f, File.folderId f = Some folderId)
                     (filter (λ f, File.userId f = FileListing.lo_userId options) (files w))
          | None =>
              filter (λ f, File.folderId f = None)
                     (filter (λ f, File.userId f = FileListing.lo_userId options) (files w))
          end
          = matching (FileListing.lo_userId options) (FileListing.lo_folderId options) w)
    as ->.
  { unfold matching. destruct (FileListing.lo_folderId options);
      rewrite list_filter_filter; apply list_filter_iff; intros f; tauto. }
  by rewrite (Permutation_length (arraySort_perm _ _ _)).
Qed.

(** X12.  For a page number [page >= 1] and a page size [limit >= 0],
    [listFiles] returns items [(page-1)*limit] up to [page*limit] of the
    sorted selection (the caller's files in the requested folder), and
    [total] is the size of the whole selection, whatever the page. *)
Theorem listFiles_page (options : FileListing.ListOptions) (w : World) :
  1 ≤ FileListing.lo_page options → 0 ≤ FileListing.lo_limit options →
  ∃ sorted,
    sorted ≡ₚ matching (FileListing.lo_userId options) (FileListing.lo_folderId options) w
    ∧ FileListing.listFiles arraySort options w
      = (w, Ok (FileListing.mkListResult
                  (take (Z.to_nat (FileListing.lo_limit options))
                        (drop (Z.to_nat ((FileListing.lo_page options - 1)
                                         * FileListing.lo_limit options)) sorted))
                  (Z.of_nat (length (matching (FileListing.lo_userId options)
                                              (FileListing.lo_folderId options) w)))
                  (FileListing.lo_page options) (FileListing.lo_limit options))).
Proof.
  intros Hpage Hlimit. eexists. split; [apply arraySort_perm|].
  rewrite listFiles_run. by rewrite jsSlice_nonneg by nia.
Qed.

(** X13.  Whatever the page, the page size and the sort key (zero and
    negative numbers included), every file [listFiles] returns is a file of
    the table that belongs to the requesting user and lies in the requested
    folder. *)
Theorem listFiles_only_own_files (options : FileListing.ListOptions) (w : World)
    (r : FileListing.ListResult) (f : File.t) :
  outcome (FileListing.listFiles arraySort options) w = Ok r →
  f ∈ FileListing.lr_files r →
  f ∈ files w
  ∧ File.userId f = FileListing.lo_userId options
  ∧ File.folderId f = FileListing.lo_folderId options.
Proof.
  unfold outcome. rewrite listFiles_run. cbn [snd]. intros [= <-]. cbn [FileListing.lr_files].
  intros Hf%jsSlice_sublist. rewrite arraySort_perm in Hf. unfold matching in Hf.
  apply list_elem_of_filter in Hf. tauto.
Qed.

(** X14.  A page that starts at or past the end of the selection is not an
    error: the result holds no files and the true [total]. *)
Theorem listFiles_page_past_the_end (options : FileListing.ListOptions) (w : World) :
  1 ≤ FileListing.lo_page options → 0 ≤ FileListing.lo_limit options →
  Z.of_nat (length (matching (FileListing.lo_userId options)
                             (FileListing.lo_folderId options) w))
    ≤ (FileListing.lo_page options - 1) * FileListing.lo_limit options →
  FileListing.listFiles arraySort options w
  = (w, Ok (FileListing.mkListResult []
              (Z.of_nat (length (matching (FileListing.lo_userId options)
                                          (FileListing.lo_folderId options) w)))
              (FileListing.lo_page options) (FileListing.lo_limit options))).
Proof.
  intros Hpage Hlimit Hpast. rewrite listFiles_run, jsSlice_nonneg by nia.
  rewrite drop_ge; [by rewrite take_nil|].
  rewrite (Permutation_length (arraySort_perm _ _ _)). lia.
Qed.

(** X15.  With a positive page size, pages 1 to [n] taken together are the
    whole selection, each file once, as soon as [n * limit] reaches the
    number of selected files: paging loses and repeats nothing. *)
Theorem listFiles_pages_cover
    (userId : string) (folderId : option string) (sortBy : string)
    (sortOrder : FileListing.SortOrder) (limit : Z) (n : nat) (w : World) :
  0 < limit →
  Z.of_nat (length (matching userId folderId w)) ≤ Z.of_nat n * limit →
  pagesUpTo arraySort userId folderId sortBy sortOrder limit n w ≡ₚ matching userId folderId w.
Proof.
  intros Hlimit Hcover.
  set (sorted := arraySort sortBy sortOrder (matching userId folderId w)).
  assert (∀ k, pagesUpTo arraySort userId folderId sortBy sortOrder limit k w
               = take (Z.to_nat (Z.of_nat k * limit)) sorted) as Hpages.
  { induction k as [|k IH]; [done|].
    cbn [pagesUpTo]. rewrite IH.
    unfold outcome. rewrite listFiles_run.
    cbn [snd FileListing.lo_userId FileListing.lo_folderId
      FileListing.lo_page FileListing.lo_limit FileListing.lo_sortBy FileListing.lo_sortOrder
      FileListing.lr_files].
    fold sorted. rewrite jsSlice_nonneg by nia.
    replace (Z.to_nat (Z.of_nat (S k) * limit))
      with (Z.to_nat (Z.of_nat k * limit) + Z.to_nat limit)%nat by nia.
    replace (Z.to_nat ((Z.of_nat (S k) - 1) * limit))
      with (Z.to_nat (Z.of_nat k * limit)) by (f_equal; nia).
    by rewrite take_take_drop. }
  rewrite Hpages, take_ge.
  - apply arraySort_perm.
  - subst sorted. rewrite (Permutation_length (arraySort_perm _ _ _)). lia.
Qed.

End listing.

Lemma reverseSort_perm (sortBy : string) (sortOrder : FileListing.SortOrder)
    (l : list File.t) : reverseSort sortBy sortOrder l ≡ₚ l.
Proof. apply reverse_Permutation. Defined.

(** X12 on the first page of u1's folder F1. *)
Lemma listFiles_page_witness :
  (∀ sortBy sortOrder l, reverseSort sortBy sortOrder l ≡ₚ l)
  ∧ 1 ≤ FileListing.lo_page demoListOptions ∧ 0 ≤ FileListing.lo_limit demoListOptions
  ∧ ∃ sorted,
      sorted ≡ₚ matching "u1" (Some "F1") wUploaded
      ∧ FileListing.listFiles reverseSort demoListOptions wUploaded
        = (wUploaded,
           Ok (FileListing.mkListResult
                 (take (Z.to_nat 20) (drop (Z.to_nat ((1 - 1) * 20)) sorted))
                 (Z.of_nat (length (matching "u1" (Some "F1") wUploaded))) 1 20)).
Proof.
  assert (1 ≤ FileListing.lo_page demoListOptions) as H1 by (vm_compute; discriminate).
  assert (0 ≤ FileListing.lo_limit demoListOptions) as H2 by (vm_compute; discriminate).
  split; [exact reverseSort_perm|]. split; [exact H1|]. split; [exact H2|].
  exact (listFiles_page reverseSort reverseSort_perm demoListOptions wUploaded H1 H2).
Defined.

(** X13 for the file that the first page of u1's folder F1 holds. *)
Lemma listFiles_only_own_files_witness :
  outcome (FileListing.listFiles reverseSort demoListOptions) wUploaded
  = Ok (FileListing.mkListResult [demoFile] 1 1 20)
  ∧ demoFile ∈ [demoFile]
  ∧ demoFile ∈ files wUploaded ∧ File.userId demoFile = "u1"
  ∧ File.folderId demoFile = Some "F1".
Proof.
  assert (outcome (FileListing.listFiles reverseSort demoListOptions) wUploaded
          = Ok (FileListing.mkListResult [demoFile] 1 1 20)) as Hrun
    by (vm_compute; reflexivity).
  assert (demoFile ∈ [demoFile]) as Hin by left.
  split; [exact Hrun|]. split; [exact Hin|].
  exact (listFiles_only_own_files reverseSort reverseSort_perm demoListOptions wUploaded
           (FileListing.mkListResult [demoFile] 1 1 20) demoFile Hrun Hin).
Defined.

(** X14 on page 2 of a folder that holds one file. *)
Lemma listFiles_page_past_the_end_witness :
  1 ≤ 2 ∧ 0 ≤ 20
  ∧ Z.of_nat (length (matching "u1" (Some "F1") wUploaded)) ≤ (2 - 1) * 20
  ∧ FileListing.listFiles reverseSort
      (FileListing.mkListOptions "u1" (Some "F1") 2 20 "name" FileListing.asc) wUploaded
    = (wUploaded,
       Ok (FileListing.mkListResult []
             (Z.of_nat (length (matching "u1" (Some "F1") wUploaded))) 2 20)).
Proof.
  assert (1 ≤ 2) as H1 by lia. assert (0 ≤ 20) as H2 by lia.
  assert (Z.of_nat (length (matching "u1" (Some "F1") wUploaded)) ≤ (2 - 1) * 20) as H3
    by (vm_compute; discriminate).
  split; [exact H1|]. split; [exact H2|]. split; [exact H3|].
  exact (listFiles_page_past_the_end reverseSort reverseSort_perm
           (FileListing.mkListOptions "u1" (Some "F1") 2 20 "name" FileListing.asc)
           wUploaded H1 H2 H3).
Defined.

(** X15 for pages of one file each. *)
Lemma listFiles_pages_cover_witness :
  0 < 1
  ∧ Z.of_nat (length (matching "u1" (Some "F1") wUploaded)) ≤ Z.of_nat 3 * 1
  ∧ pagesUpTo reverseSort "u1" (Some "F1") "name" FileListing.asc 1 3 wUploaded
    ≡ₚ matching "u1" (Some "F1") wUploaded.
Proof.
  assert (0 < 1) as H1 by lia.
  assert (Z.of_nat (length (matching "u1" (Some "F1") wUploaded)) ≤ Z.of_nat 3 * 1) as H2
    by (vm_compute; discriminate).
  split; [exact H1|]. split; [exact H2|].
  exact (listFiles_pages_cover reverseSort reverseSort_perm "u1" (Some "F1") "name"
           FileListing.asc 1 3 wUploaded H1 H2).
Defined.

(* ========================================================================= *)
(** * Strings: splitting and joining *)

Lemma string_app_cons (x : ascii) (a b : string) : String x a +:+ b = String x (a +:+ b).
Proof. reflexivity. Qed.

Lemma string_app_nil_l (b : string) : "" +:+ b = b.
Proof. reflexivity. Qed.

Lemma string_app_assoc (a b c : string) : (a +:+ b) +:+ c = a +:+ (b +:+ c).
Proof. induction a as [|x a IH]; [done|]. rewrite !string_app_cons. f_equal. apply IH. Qed.

Lemma string_app_nil_r (a : string) : a +:+ "" = a.
Proof. induction a as [|x a IH]; [done|]. rewrite string_app_cons. f_equal. apply IH. Qed.

Lemma split_go_no_sep (sep : ascii) (cur a : string) :
  containsChar sep a = false → split_go sep cur a = [cur +:+ a].
Proof.
  revert cur. induction a as [|c a IH]; intros cur Hno; simpl in *.
  - by rewrite string_app_nil_r.
  - apply orb_false_iff in Hno as [Hc Ha]. rewrite Hc, IH by done.
    by rewrite string_app_assoc.
Qed.

Lemma split_go_app (sep : ascii) (cur a b : string) :
  containsChar sep a = false →
  split_go sep cur (a +:+ String sep b) = (cur +:+ a) :: split_go sep "" b.
Proof.
  revert cur. induction a as [|c a IH]; intros cur Hno; simpl in *.
  - by rewrite Ascii.eqb_refl, string_app_nil_r.
  - apply orb_false_iff in Hno as [Hc Ha]. rewrite Hc, IH by done.
    by rewrite string_app_assoc.
Qed.

Lemma split_no_sep (sep : ascii) (a : string) :
  containsChar sep a = false → split sep a = [a].
Proof. intros Hno. unfold split. by rewrite split_go_no_sep. Qed.

Lemma split_app (sep : ascii) (a b : string) :
  containsChar sep a = false → split sep (a +:+ String sep b) = a :: split sep b.
Proof. intros Hno. unfold split. by rewrite split_go_app. Qed.

(** Splitting at the last separator. *)
Lemma split_go_snoc (sep : ascii) (cur a b : string) :
  containsChar sep b = false →
  split_go sep cur (a +:+ String sep b) = split_go sep cur a ++ [b].
Proof.
  revert cur. induction a as [|c a IH]; intros cur Hno; simpl.
  - rewrite Ascii.eqb_refl. by rewrite split_go_no_sep.
  - destruct (Ascii.eqb c sep); [|by apply IH]. simpl. f_equal. by apply IH.
Qed.

Lemma join_split_go (sep : ascii) (cur a : string) :
  join (String sep "") (split_go sep cur a) = cur +:+ a.
Proof.
  revert cur. induction a as [|c a IH]; intros cur; simpl.
  - by rewrite string_app_nil_r.
  - destruct (Ascii.eqb c sep) eqn:Hc.
    + apply Ascii.eqb_eq in Hc as ->.
      change (join (String sep "") (cur :: split_go sep "" a))
        with (match split_go sep "" a with
              | [] => cur
              | _ :: _ => cur +:+ String sep "" +:+ join (String sep "") (split_go sep "" a)
              end).
      specialize (IH ""). simpl in IH.
      destruct (split_go sep "" a) eqn:Hsplit.
      * destruct a; simpl in Hsplit; [done|]. by destruct (Ascii.eqb _ _).
      * rewrite IH. done.
    + rewrite IH. by rewrite string_app_assoc.
Qed.

Lemma join_split (sep : ascii) (a : string) : join (String sep "") (split sep a) = a.
Proof. apply (join_split_go sep ""). Qed.

Lemma split_go_nonempty (sep : ascii) (cur a : string) : split_go sep cur a ≠ [].
Proof.
  revert cur. induction a as [|c a IH]; intros cur; simpl; [done|].
  destruct (Ascii.eqb c sep); [done|apply IH].
Qed.

Lemma join_snoc (sep : string) (parts : list string) (x : string) :
  parts ≠ [] → join sep (parts ++ [x]) = join sep parts +:+ sep +:+ x.
Proof.
  induction parts as [|p parts IH]; intros Hne; [done|].
  destruct parts as [|q parts]; [done|].
  change (join sep ((p :: q :: parts) ++ [x]))
    with (p +:+ sep +:+ join sep ((q :: parts) ++ [x])).
  rewrite IH by done.
  change (join sep (p :: q :: parts)) with (p +:+ sep +:+ join sep (q :: parts)).
  by rewrite !string_app_assoc.
Qed.

(** X16.  The thumbnail key of [dir/name] is [dir/thumb_name]: only the last
    segment is renamed, so a thumbnail stays in the directory (and under the
    owner prefix) of its file. *)
Theorem generateThumbnailPath_in_same_directory (dir name : string) :
  containsChar "/" name = false →
  generateThumbnailPath (dir +:+ "/" +:+ name) = dir +:+ "/" +:+ "thumb_" +:+ name.
Proof.
  intros Hname. unfold generateThumbnailPath, split.
  change (dir +:+ "/" +:+ name) with (dir +:+ String "/" name).
  rewrite split_go_snoc by done.
  rewrite last_snoc, removelast_last. simpl default.
  rewrite join_snoc by apply split_go_nonempty.
  change "/" with (String "/"%char "") at 1.
  by rewrite (join_split_go "/" "" dir).
Qed.

Lemma generateThumbnailPath_without_directory (name : string) :
  containsChar "/" name = false →
  generateThumbnailPath name = "thumb_" +:+ name.
Proof.
  intros Hname. unfold generateThumbnailPath. by rewrite split_no_sep.
Qed.

(** X16 at the key of the worked installation. *)
Lemma generateThumbnailPath_witness :
  containsChar "/" "k1-a.txt" = false
  ∧ generateThumbnailPath ("u1" +:+ "/" +:+ "k1-a.txt") = "u1" +:+ "/" +:+ "thumb_" +:+ "k1-a.txt".
Proof.
  assert (containsChar "/" "k1-a.txt" = false) as H by reflexivity.
  split; [exact H|]. exact (generateThumbnailPath_in_same_directory "u1" "k1-a.txt" H).
Defined.

(* ========================================================================= *)
(** * The storage service *)

Lemma segment_with_dash (a b : string) :
  ¬ (a +:+ "-" +:+ b = "" ∨ a +:+ "-" +:+ b = ".") ∧ a +:+ "-" +:+ b ≠ "..".
Proof.
  destruct a as [|x [|y [|z a]]]; rewrite ?string_app_cons, ?string_app_nil_l;
    split; try intros [H|H]; try intros H; try discriminate H.
Qed.

Lemma uploadKey_path (root : Path) (userId uuid filename : string) :
  containsChar "/" userId = false → containsChar "/" uuid = false →
  containsChar "/" filename = false →
  userId ≠ "" → userId ≠ "." → userId ≠ ".." →
  path_join root (userId +:+ "/" +:+ uuid +:+ "-" +:+ filename)
  = root ++ [userId; uuid +:+ "-" +:+ filename].
Proof.
  intros Hu Hk Hf H1 H2 H3. unfold path_join.
  change (userId +:+ "/" +:+ uuid +:+ "-" +:+ filename)
    with (userId +:+ String "/" (uuid +:+ "-" +:+ filename)).
  rewrite split_app by done.
  rewrite split_no_sep.
  2:{ clear -Hk Hf. induction uuid as [|c u IH]; simpl in *.
      - done.
      - apply orb_false_iff in Hk as [Hc Hk]. rewrite string_app_cons. simpl.
        rewrite Hc. by apply IH. }
  simpl. unfold pushSegment at 2.
  rewrite bool_decide_eq_false_2 by (intros [?|?]; done).
  rewrite bool_decide_eq_false_2 by done.
  unfold pushSegment.
  destruct (segment_with_dash uuid filename) as [Ha Hb].
  rewrite bool_decide_eq_false_2 by done.
  rewrite bool_decide_eq_false_2 by done.
  by rewrite <-app_assoc.
Qed.

Lemma localStoragePath_eq (config : Config) :
  StorageService.localStoragePath config = cwd config ++ ["uploads"].
Proof. reflexivity. Qed.


Lemma getFileSize_eval (config : Config) (fileKey : string) (w : World) :
  StorageService.getFileSize config fileKey w = (w, Ok (reportedFileSize config fileKey w)).
Proof.
  unfold StorageService.getFileSize, reportedFileSize, fs_stat_size. run_m.
  destruct (storageType config); [|done..].
  destruct (backendUp w); [|done]. by destruct (disk w !! _).
Qed.

Lemma updateUserStorageUsage_run (userId : string) (sizeChange : Z) (w : World) :
  StorageService.updateUserStorageUsage userId sizeChange w
  = (after (StorageService.updateUserStorageUsage userId sizeChange) w, Ok tt)
  ∧ disk (after (StorageService.updateUserStorageUsage userId sizeChange) w) = disk w
  ∧ bucket (after (StorageService.updateUserStorageUsage userId sizeChange) w) = bucket w
  ∧ backendUp (after (StorageService.updateUserStorageUsage userId sizeChange) w) = backendUp w
  ∧ sameTables w (after (StorageService.updateUserStorageUsage userId sizeChange) w).
Proof. done. Qed.

(** [StorageService.deleteFile] step by step: the world [w1] after the usage
    update, then the removal on the configured medium. *)
Lemma storage_deleteFile_eval (config : Config) (fileKey : string) (w : World) :
  StorageService.deleteFile config fileKey w
  = (if StorageService.isObjectStorage config
     then StorageService.deleteFromS3 config fileKey
     else StorageService.deleteFromLocalStorage config fileKey)
      (after (StorageService.updateUserStorageUsage
                (default "" (head (split "/" fileKey)))
                (- reportedFileSize config fileKey w)) w).
Proof.
  unfold StorageService.deleteFile, bind. rewrite getFileSize_eval.
  by destruct (updateUserStorageUsage_run (default "" (head (split "/" fileKey)))
                 (- reportedFileSize config fileKey w) w) as [-> _].
Qed.

(** X18.  On either medium, once [deleteFile] of a key has succeeded, a
    [getFile] of the same key fails. *)
Theorem getFile_after_deleteFile_fails (config : Config) (fileKey : string) (w : World) :
  outcome (StorageService.deleteFile config fileKey) w = Ok tt →
  ∃ e, outcome (StorageService.getFile config fileKey)
               (after (StorageService.deleteFile config fileKey) w) = Throw e.
Proof.
  unfold outcome, after. rewrite storage_deleteFile_eval.
  set (w1 := after (StorageService.updateUserStorageUsage _ _) w).
  unfold StorageService.getFile, StorageService.deleteFromS3, StorageService.getFromS3,
    StorageService.deleteFromLocalStorage, StorageService.getFromLocalStorage,
    StorageService.s3Client, s3_delete, s3_get, fs_unlink, fs_readFile.
  destruct (StorageService.isObjectStorage config); cbn [negb];
    destruct (backendUp w1) eqn:Hup; try done.
  - intros _. cbn [fst snd set_bucket backendUp bucket]. rewrite Hup, lookup_delete_eq. eauto.
  - destruct (disk w1 !! _) eqn:Hd; [|done].
    intros _. cbn [fst snd set_disk backendUp disk]. rewrite Hup, lookup_delete_eq. eauto.
Qed.

Lemma reportedUsedBytes_unfold (userId : string) (w : World) :
  reportedUsedBytes userId w = Some (default 0 (userStorageUsage w !! userId)).
Proof. reflexivity. Qed.

Lemma updateUserStorageUsage_zero (userId other : string) (w : World) :
  usageNonNegative w →
  reportedUsedBytes other (after (StorageService.updateUserStorageUsage userId (- 0)) w)
  = reportedUsedBytes other w.
Proof.
  intros Hnn. rewrite !reportedUsedBytes_unfold, updateUserStorageUsage_lookup.
  case_decide as Heq; [|done]. subst. f_equal.
  destruct (userStorageUsage w !! userId) as [v|] eqn:Hv; simpl; [|done].
  specialize (Hnn _ _ Hv). lia.
Qed.

(** X19.  With object storage (s3 or r2) [deleteFile] never releases quota:
    [getFileSize] reports 0 there, so the [usedBytes] of every user is the
    same before and after, whether the delete succeeds or not. *)
Theorem objectStorage_deleteFile_keeps_usage
    (config : Config) (fileKey userId : string) (w : World) :
  StorageService.isObjectStorage config = true →
  usageNonNegative w →
  reportedUsedBytes userId (after (StorageService.deleteFile config fileKey) w)
  = reportedUsedBytes userId w.
Proof.
  intros Hs3 Hnn.
  pose proof (updateUserStorageUsage_zero (default "" (head (split "/" fileKey))) userId w Hnn)
    as Hzero.
  assert (reportedFileSize config fileKey w = 0) as Hsize.
  { unfold reportedFileSize. unfold StorageService.isObjectStorage in Hs3.
    by destruct (storageType config). }
  unfold after at 1. rewrite storage_deleteFile_eval, Hs3, Hsize.
  rewrite <-Hzero. rewrite !reportedUsedBytes_unfold.
  unfold StorageService.deleteFromS3, StorageService.s3Client, s3_delete. rewrite Hs3.
  cbn [negb]. by destruct (backendUp _).
Qed.

(** The usage update keeps every counter non-negative. *)
Lemma usage_never_negative (userId : string) (sizeChange : Z) (w : World) :
  usageNonNegative w →
  usageNonNegative (after (StorageService.updateUserStorageUsage userId sizeChange) w).
Proof.
  intros Hnn other v Hv.
  pose proof (updateUserStorageUsage_lookup userId other sizeChange w) as Hl.
  rewrite Hv in Hl. simpl in Hl. case_decide; [lia|].
  destruct (userStorageUsage w !! other) as [v'|] eqn:Hv'; simpl in Hl; [|lia].
  specialize (Hnn _ _ Hv'). lia.
Qed.

Lemma storage_uploadFile_local_eval
    (config : Config) (fileBuffer : Buffer) (options : StorageService.StorageOptions)
    (uuid : string) (w : World) :
  storageType config = local → backendUp w = true →
  StorageService.uploadFile config fileBuffer options uuid w
  = (set_disk
       (<[path_join (StorageService.localStoragePath config)
                    (StorageService.userId options +:+ "/" +:+ uuid +:+ "-"
                     +:+ StorageService.filename options) := fileBuffer]> (disk w))
       (after (StorageService.updateUserStorageUsage (StorageService.userId options)
                                                     (buffer_length fileBuffer)) w),
     Ok (StorageService.userId options +:+ "/" +:+ uuid +:+ "-"
         +:+ StorageService.filename options)).
Proof.
  intros Hlocal Hup.
  unfold StorageService.uploadFile, StorageService.uploadToLocalStorage,
    StorageService.isObjectStorage, fs_writeFile, bind, ret.
  rewrite Hlocal.
  destruct (updateUserStorageUsage_run (StorageService.userId options)
              (buffer_length fileBuffer) w) as (-> & Hd & _ & Hb & _).
  by rewrite Hb, Hup, Hd.
Qed.


(** X20.  On a reachable local medium, when the user id, the uuid and the
    file name hold no slash and the user id is not empty, [.] or [..], the
    upload is written to [<cwd>/uploads/<userId>/<uuid>-<filename>] and no
    other path of the disk changes. *)
Theorem local_upload_stored_under_owner_directory
    (config : Config) (fileBuffer : Buffer) (options : StorageService.StorageOptions)
    (uuid : string) (w : World) :
  storageType config = local → backendUp w = true →
  containsChar "/" (StorageService.userId options) = false →
  containsChar "/" uuid = false →
  containsChar "/" (StorageService.filename options) = false →
  StorageService.userId options ≠ "" → StorageService.userId options ≠ "." →
  StorageService.userId options ≠ ".." →
  disk (after (StorageService.uploadFile config fileBuffer options uuid) w)
    !! (cwd config ++ ["uploads"; StorageService.userId options;
                       uuid +:+ "-" +:+ StorageService.filename options])
  = Some fileBuffer
  ∧ ∀ q, q ≠ cwd config ++ ["uploads"; StorageService.userId options;
                             uuid +:+ "-" +:+ StorageService.filename options] →
         disk (after (StorageService.uploadFile config fileBuffer options uuid) w) !! q
         = disk w !! q.
Proof.
  intros Hlocal Hup Hu Hk Hf H1 H2 H3.
  unfold after at 1 2. rewrite storage_uploadFile_local_eval by done. cbn [fst disk set_disk].
  rewrite uploadKey_path, localStoragePath_eq by done. rewrite <-app_assoc. simpl.
  split; [apply lookup_insert_eq|]. intros q Hq. by apply lookup_insert_ne.
Qed.

(* ========================================================================= *)
(** * Share links, and look-ups after creation *)

Lemma find_app_fresh {A} (p : A → bool) (l : list A) (x : A) :
  (∀ y, y ∈ l → p y = false) → p x = true → find p (l ++ [x]) = Some x.
Proof.
  intros Hl Hx. unfold find.
  destruct (list_find _ (l ++ [x])) as [[i y]|] eqn:Hfind.
  - apply list_find_Some in Hfind as (Hi & Hy & Hfirst). simpl. f_equal.
    destruct (decide (i < length l)%nat) as [Hlt|Hge].
    + rewrite lookup_app_l in Hi by done.
      apply list_elem_of_lookup_2 in Hi. apply Hl in Hi. congruence.
    + rewrite lookup_app_r in Hi by lia.
      destruct (i - length l)%nat; simpl in Hi; [congruence|done].
  - apply list_find_None in Hfind. rewrite Forall_app, Forall_singleton in Hfind.
    by destruct Hfind as [_ []].
Qed.

Lemma findIndex_None {A} (p : A → bool) (l : list A) :
  findIndex p l = None ↔ ∀ x, x ∈ l → p x = false.
Proof. unfold findIndex. rewrite fmap_None. apply findWithIndex_None. Qed.

(** X21.  A link created with a token that no link of the table carries is
    found by [getShareLinkByToken] under that token at every time up to and
    including its [expiresAt] (at any time when it has none). *)
Theorem createShareLink_then_resolve
    (shareData : FileService.ShareData) (uuid tokenUuid : string) (now later : Z)
    (w : World) :
  (∀ l, l ∈ shareLinks w → ShareLink.token l ≠ tokenUuid) →
  match FileService.sd_expiresAt shareData with
  | Some (DateMs e) => later ≤ e
  | _ => True
  end →
  ∃ link,
    outcome (FileService.createShareLink shareData uuid tokenUuid now) w = Ok link
    ∧ ShareLink.fileId link = FileService.sd_fileId shareData
    ∧ ShareLink.token link = tokenUuid
    ∧ outcome (FileService.getShareLinkByToken tokenUuid later)
              (after (FileService.createShareLink shareData uuid tokenUuid now) w)
      = Ok (Some link).
Proof.
  intros Hfresh Hvalid. eexists. split; [reflexivity|]. split_and!; [done..|].
  unfold outcome. rewrite getShareLinkByToken_eval. cbn [snd]. f_equal.
  unfold after, FileService.createShareLink. run_m.
  rewrite find_app_fresh.
  - rewrite decide_True; [done|]. unfold validAt. simpl.
    by destruct (FileService.sd_expiresAt shareData) as [[e|]|].
  - intros l Hl. apply bool_decide_eq_false. by apply Hfresh.
  - by apply bool_decide_eq_true.
Qed.

(** X22.  [deleteShareLink] throws "Share link not found" and changes
    nothing when no link with that id belongs to the caller: another user's
    link cannot be revoked. *)
Theorem deleteShareLink_not_owned (shareLinkId userId : string) (w : World) :
  (∀ l, l ∈ shareLinks w → ShareLink.id l = shareLinkId → ShareLink.userId l ≠ userId) →
  FileService.deleteShareLink shareLinkId userId w = (w, Throw "Share link not found").
Proof.
  intros Hnot. unfold FileService.deleteShareLink. run_m.
  rewrite (proj2 (findIndex_None _ _)); [done|].
  intros l Hl. apply andb_false_iff.
  destruct (decide (ShareLink.id l = shareLinkId)) as [Hid|Hid].
  - right. apply bool_decide_eq_false. by apply Hnot.
  - left. by apply bool_decide_eq_false.
Qed.

(** X23.  With unique tokens and ids, revoking a link of the caller
    succeeds, the link's token no longer resolves, and every other link is
    still in the table. *)
Theorem deleteShareLink_revokes_token
    (shareLinkId userId : string) (now : Z) (w : World) (link : ShareLink.t) :
  NoDup (ShareLink.token <$> shareLinks w) →
  link ∈ shareLinks w →
  ShareLink.id link = shareLinkId → ShareLink.userId link = userId →
  (∀ l, l ∈ shareLinks w → ShareLink.id l = shareLinkId → l = link) →
  outcome (FileService.deleteShareLink shareLinkId userId) w = Ok tt
  ∧ outcome (FileService.getShareLinkByToken (ShareLink.token link) now)
            (after (FileService.deleteShareLink shareLinkId userId) w) = Ok None
  ∧ ∀ l, l ∈ shareLinks w → l ≠ link →
         l ∈ shareLinks (after (FileService.deleteShareLink shareLinkId userId) w).
Proof.
  intros Hnd Hin Hid Huser Huniq.
  destruct (findWithIndex_exists
              (λ s, bool_decide (ShareLink.id s = shareLinkId)
                    && bool_decide (ShareLink.userId s = userId))
              (shareLinks w) link Hin) as (i & l0 & Hfind).
  { by rewrite !bool_decide_eq_true_2. }
  pose proof (findWithIndex_Some _ _ _ _ Hfind) as (Hi & Hp & _).
  apply andb_true_iff in Hp as [Hp%bool_decide_eq_true _].
  assert (l0 = link) as -> by (apply Huniq; [by eapply list_elem_of_lookup_2|done]).
  unfold outcome, after. rewrite getShareLinkByToken_eval.
  unfold FileService.deleteShareLink. run_m.
  unfold findIndex. unfold findWithIndex in Hfind. rewrite Hfind. simpl.
  split_and!; [done| |].
  - rewrite (proj2 (find_None _ _)); [done|].
    intros l Hl. apply bool_decide_eq_false. intros Htok.
    apply list_elem_of_lookup in Hl as [j Hj].
    assert (∃ j', j' ≠ i ∧ shareLinks w !! j' = Some l) as (j' & Hne & Hj').
    { destruct (decide (j < i)%nat).
      - exists j. rewrite list_lookup_delete_lt in Hj by done. split; [lia|done].
      - exists (S j). rewrite list_lookup_delete_ge in Hj by lia. split; [lia|done]. }
    apply Hne. eapply NoDup_lookup; [exact Hnd| |].
    + rewrite list_lookup_fmap, Hj'. reflexivity.
    + rewrite list_lookup_fmap, Hi. simpl. by rewrite Htok.
  - intros l Hl Hne. apply list_elem_of_lookup in Hl as [j Hj].
    assert (j ≠ i) as Hji by (intros ->; congruence).
    apply list_elem_of_lookup.
    destruct (decide (j < i)%nat).
    + exists j. by rewrite list_lookup_delete_lt.
    + exists (j - 1)%nat. rewrite list_lookup_delete_ge by lia.
      by replace (S (j - 1)) with j by lia.
Qed.

(** X24.  A file created under an id that no file of the table carries is
    returned by [getFileById] to its owner, and to nobody else. *)
Theorem createFile_then_getFileById
    (fileData : FileService.FileData) (uuid : string) (now : Z) (w : World) :
  (∀ f, f ∈ files w → File.id f ≠ uuid) →
  ∃ newFile,
    outcome (FileService.createFile fileData uuid now) w = Ok newFile
    ∧ File.id newFile = uuid
    ∧ outcome (FileService.getFileById uuid (FileService.fd_userId fileData))
              (after (FileService.createFile fileData uuid now) w) = Ok (Some newFile)
    ∧ ∀ other, other ≠ FileService.fd_userId fileData →
        outcome (FileService.getFileById uuid other)
                (after (FileService.createFile fileData uuid now) w) = Ok None.
Proof.
  intros Hfresh. eexists. split; [reflexivity|]. split; [done|].
  unfold outcome, after, FileService.createFile, FileService.getFileById. run_m.
  split.
  - f_equal. apply find_app_fresh.
    + intros f Hf. apply andb_false_iff. left. apply bool_decide_eq_false. by apply Hfresh.
    + by rewrite !bool_decide_eq_true_2.
  - intros other Hother. f_equal. apply find_None. intros f [Hf|Hf]%elem_of_app.
    + apply andb_false_iff. left. apply bool_decide_eq_false. by apply Hfresh.
    + apply list_elem_of_singleton in Hf as ->. simpl.
      apply andb_false_iff. right. apply bool_decide_eq_false. done.
Qed.

(** X25.  After [createFolder], [listFolders] for the owner and the given
    parent returns what it returned before followed by the new folder. *)
Theorem createFolder_then_listFolders
    (folderData : FileService.FolderData) (uuid : string) (now : Z) (w : World) :
  ∃ newFolder,
    outcome (FileService.createFolder folderData uuid now) w = Ok newFolder
    ∧ ∀ before,
        outcome (FileService.listFolders (FileService.od_userId folderData)
                                         (FileService.od_parentId folderData)) w = Ok before →
        outcome (FileService.listFolders (FileService.od_userId folderData)
                                         (FileService.od_parentId folderData))
                (after (FileService.createFolder folderData uuid now) w)
        = Ok (before ++ [newFolder]).
Proof.
  eexists. split; [reflexivity|].
  unfold outcome, after, FileService.createFolder, FileService.listFolders. run_m.
  intros before [= <-]. f_equal.
  rewrite !filter_app. f_equal.
  rewrite filter_cons_True by done. rewrite filter_nil. by rewrite filter_cons_True.
Qed.

(* ========================================================================= *)
(** * The handlers of the file controller *)

Lemma getFileById_not_owned (fileId userId : string) (w : World) :
  (∀ f, f ∈ files w → File.id f = fileId → File.userId f ≠ userId) →
  FileService.getFileById fileId userId w = (w, Ok None).
Proof.
  intros Hnot. unfold FileService.getFileById, gets. f_equal. f_equal.
  apply find_None. intros f Hf. apply andb_false_iff.
  destruct (decide (File.id f = fileId)) as [Hid|Hid].
  - right. apply bool_decide_eq_false. by apply Hnot.
  - left. by apply bool_decide_eq_false.
Qed.

(** X26.  When no file with the requested id belongs to the authenticated
    caller, the update, delete, share, unshare, details and download handlers
    all answer 404 "File not found" and leave the whole world (tables, usage,
    stored objects) exactly as it was. *)
Theorem handlers_refuse_files_of_others
    (config : Config) (userId fileId : string) (w : World) :
  truthy userId = true →
  (∀ f, f ∈ files w → File.id f = fileId → File.userId f ≠ userId) →
  (∀ name folderId now,
     FileController.updateFile (Some userId) fileId name folderId now w
     = (w, Ok (mkResponse 404 (ErrorBody "File not found"))))
  ∧ FileController.deleteFile config (Some userId) fileId w
    = (w, Ok (mkResponse 404 (ErrorBody "File not found")))
  ∧ (∀ expiresAt isPublic allowedEmails uuid tokenUuid now,
       FileControllerMore.shareFile (Some userId) fileId expiresAt isPublic allowedEmails
                                    uuid tokenUuid now w
       = (w, Ok (Json (mkResponse 404 (ErrorBody "File not found")))))
  ∧ (∀ shareId,
       FileControllerMore.removeFileShare (Some userId) fileId shareId w
       = (w, Ok (Json (mkResponse 404 (ErrorBody "File not found")))))
  ∧ FileControllerMore.getFileDetails (Some userId) fileId w
    = (w, Ok (Json (mkResponse 404 (ErrorBody "File not found"))))
  ∧ FileControllerMore.downloadFile config (Some userId) fileId w
    = (w, Ok (Json (mkResponse 404 (ErrorBody "File not found")))).
Proof.
  intros Huser Hnot.
  pose proof (getFileById_not_owned fileId userId w Hnot) as Hget.
  unfold FileController.updateFile, FileController.deleteFile, FileControllerMore.shareFile,
    FileControllerMore.removeFileShare, FileControllerMore.getFileDetails,
    FileControllerMore.downloadFile.
  rewrite Huser. cbn [negb]. unfold try_catch, bind. rewrite Hget.
  split_and!; done.
Qed.



(* ========================================================================= *)
(** * The user table *)


(** X29.  [register] with an email that a user of the table already has is
    answered 409 and adds no user. *)
Theorem register_rejects_known_email
    (bcryptHash : string → string → string) (jwtSign : string → string)
    (users : list User.t) (email password name salt uuid : string) (now : Z) (u : User.t) :
  truthy email = true → truthy password = true → truthy name = true →
  u ∈ users → User.email u = email →
  UserController.register bcryptHash jwtSign (Some email) (Some password) (Some name)
                          salt uuid now users
  = (users, RegisterError 409 "User with this email already exists").
Proof.
  intros He Hp Hn Hin Hemail. unfold UserController.register. simpl.
  rewrite He, Hp, Hn. simpl.
  destruct (UserService.findByEmail email users) eqn:Hfind; [done|].
  unfold UserService.findByEmail in Hfind. rewrite find_None in Hfind.
  specialize (Hfind u Hin). by apply bool_decide_eq_false in Hfind.
Qed.

(* ========================================================================= *)
(** * Worked instances *)

Lemma usageNonNegative_empty : usageNonNegative emptyWorld.
Proof. intros userId v Hv. simpl in Hv. by rewrite lookup_empty in Hv. Defined.


Lemma files_wShared : files wShared = [demoFile].
Proof. vm_compute; reflexivity. Defined.

Lemma shareLinks_wShared : shareLinks wShared = [demoLink].
Proof. vm_compute; reflexivity. Defined.


(** X18 for the stored object of the worked installation. *)
Lemma getFile_after_deleteFile_witness :
  outcome (StorageService.deleteFile demoConfig demoKey) wUploaded = Ok tt
  ∧ ∃ e, outcome (StorageService.getFile demoConfig demoKey)
                 (after (StorageService.deleteFile demoConfig demoKey) wUploaded) = Throw e.
Proof.
  assert (outcome (StorageService.deleteFile demoConfig demoKey) wUploaded = Ok tt) as H
    by (vm_compute; reflexivity).
  split; [exact H|]. exact (getFile_after_deleteFile_fails demoConfig demoKey wUploaded H).
Defined.

(** X19 with an s3 configuration. *)
Lemma objectStorage_deleteFile_witness :
  StorageService.isObjectStorage demoObjectConfig = true
  ∧ usageNonNegative emptyWorld
  ∧ reportedUsedBytes "u1" (after (StorageService.deleteFile demoObjectConfig demoKey) emptyWorld)
    = reportedUsedBytes "u1" emptyWorld.
Proof.
  assert (StorageService.isObjectStorage demoObjectConfig = true) as H by reflexivity.
  split; [exact H|]. split; [exact usageNonNegative_empty|].
  exact (objectStorage_deleteFile_keeps_usage demoObjectConfig demoKey "u1" emptyWorld
           H usageNonNegative_empty).
Defined.


(** X20 for u1's upload on the empty installation. *)
Lemma local_upload_stored_witness :
  storageType demoConfig = local ∧ backendUp emptyWorld = true
  ∧ containsChar "/" "u1" = false ∧ containsChar "/" "k1" = false
  ∧ containsChar "/" "a.txt" = false
  ∧ "u1" ≠ "" ∧ "u1" ≠ "." ∧ "u1" ≠ ".."
  ∧ disk (after (StorageService.uploadFile demoConfig buf700 demoOptions "k1") emptyWorld)
      !! (cwd demoConfig ++ ["uploads"; "u1"; "k1" +:+ "-" +:+ "a.txt"])
    = Some buf700.
Proof.
  assert ("u1" ≠ "") as N1 by discriminate.
  assert ("u1" ≠ ".") as N2 by discriminate.
  assert ("u1" ≠ "..") as N3 by discriminate.
  split_and!; [reflexivity..|exact N1|exact N2|exact N3|].
  exact (proj1 (local_upload_stored_under_owner_directory demoConfig buf700 demoOptions "k1"
                  emptyWorld eq_refl eq_refl eq_refl eq_refl eq_refl N1 N2 N3)).
Defined.

(** X21 for a link that expires at [t0], resolved at [t0]. *)
Lemma createShareLink_then_resolve_witness :
  (∀ l, l ∈ shareLinks emptyWorld → ShareLink.token l ≠ "tok2")
  ∧ t0 ≤ t0
  ∧ ∃ link,
      outcome (FileService.createShareLink
                 (FileService.mkShareData "f1" "u1" (Some (DateMs t0)) true [])
                 "s2" "tok2" (t0 - 1000)) emptyWorld = Ok link
      ∧ ShareLink.fileId link = "f1"
      ∧ ShareLink.token link = "tok2"
      ∧ outcome (FileService.getShareLinkByToken "tok2" t0)
                (after (FileService.createShareLink
                          (FileService.mkShareData "f1" "u1" (Some (DateMs t0)) true [])
                          "s2" "tok2" (t0 - 1000)) emptyWorld)
        = Ok (Some link).
Proof.
  assert (∀ l, l ∈ shareLinks emptyWorld → ShareLink.token l ≠ "tok2") as Hfresh.
  { intros l Hl. simpl in Hl. by apply elem_of_nil in Hl. }
  assert (t0 ≤ t0) as Hle by lia.
  split; [exact Hfresh|]. split; [exact Hle|].
  exact (createShareLink_then_resolve
           (FileService.mkShareData "f1" "u1" (Some (DateMs t0)) true [])
           "s2" "tok2" (t0 - 1000) t0 emptyWorld Hfresh Hle).
Defined.

(** X22 for user u2 and the link of u1. *)
Lemma deleteShareLink_not_owned_witness :
  (∀ l, l ∈ shareLinks wShared → ShareLink.id l = "s1" → ShareLink.userId l ≠ "u2")
  ∧ FileService.deleteShareLink "s1" "u2" wShared = (wShared, Throw "Share link not found").
Proof.
  assert (∀ l, l ∈ shareLinks wShared → ShareLink.id l = "s1" → ShareLink.userId l ≠ "u2")
    as Hnot.
  { intros l Hl _. rewrite shareLinks_wShared in Hl.
    apply list_elem_of_singleton in Hl as ->. discriminate. }
  split; [exact Hnot|]. exact (deleteShareLink_not_owned "s1" "u2" wShared Hnot).
Defined.

(** X23 for u1 revoking the link s1. *)
Lemma deleteShareLink_revokes_witness :
  NoDup (ShareLink.token <$> shareLinks wShared)
  ∧ demoLink ∈ shareLinks wShared
  ∧ ShareLink.id demoLink = "s1" ∧ ShareLink.userId demoLink = "u1"
  ∧ (∀ l, l ∈ shareLinks wShared → ShareLink.id l = "s1" → l = demoLink)
  ∧ outcome (FileService.deleteShareLink "s1" "u1") wShared = Ok tt.
Proof.
  assert (NoDup (ShareLink.token <$> shareLinks wShared)) as H1 by compute_done.
  assert (demoLink ∈ shareLinks wShared) as H2 by (rewrite shareLinks_wShared; left).
  assert (∀ l, l ∈ shareLinks wShared → ShareLink.id l = "s1" → l = demoLink) as H3.
  { intros l Hl _. rewrite shareLinks_wShared in Hl. by apply list_elem_of_singleton in Hl. }
  split; [exact H1|]. split; [exact H2|]. split; [reflexivity|]. split; [reflexivity|].
  split; [exact H3|].
  exact (proj1 (deleteShareLink_revokes_token "s1" "u1" t0 wShared demoLink
                  H1 H2 eq_refl eq_refl H3)).
Defined.

(** X24 on the empty installation. *)
Lemma createFile_then_getFileById_witness :
  (∀ f, f ∈ files emptyWorld → File.id f ≠ "f1")
  ∧ ∃ newFile,
      outcome (FileService.createFile
                 (FileService.mkFileData "u1" "a.txt" 700 "text/plain" demoKey None)
                 "f1" t0) emptyWorld = Ok newFile
      ∧ File.id newFile = "f1".
Proof.
  assert (∀ f, f ∈ files emptyWorld → File.id f ≠ "f1") as Hfresh.
  { intros f Hf. simpl in Hf. by apply elem_of_nil in Hf. }
  split; [exact Hfresh|].
  destruct (createFile_then_getFileById
              (FileService.mkFileData "u1" "a.txt" 700 "text/plain" demoKey None)
              "f1" t0 emptyWorld Hfresh) as (newFile & Hrun & Hid & _).
  exists newFile. split; [exact Hrun|exact Hid].
Defined.

(** X26 for user u2 and the file of u1. *)
Lemma handlers_refuse_witness :
  truthy "u2" = true
  ∧ (∀ f, f ∈ files wShared → File.id f = "f1" → File.userId f ≠ "u2")
  ∧ FileController.deleteFile demoConfig (Some "u2") "f1" wShared
    = (wShared, Ok (mkResponse 404 (ErrorBody "File not found"))).
Proof.
  assert (truthy "u2" = true) as H1 by reflexivity.
  assert (∀ f, f ∈ files wShared → File.id f = "f1" → File.userId f ≠ "u2") as H2.
  { intros f Hf _. rewrite files_wShared in Hf.
    apply list_elem_of_singleton in Hf as ->. discriminate. }
  split; [exact H1|]. split; [exact H2|].
  exact (proj1 (proj2 (handlers_refuse_files_of_others demoConfig "u2" "f1" wShared H1 H2))).
Defined.



(** X29 for a second registration under Ann's email. *)
Lemma register_rejects_known_email_witness :
  truthy "ann@example.org" = true ∧ truthy "Secret456" = true ∧ truthy "Bob" = true
  ∧ demoUser ∈ [demoUser] ∧ User.email demoUser = "ann@example.org"
  ∧ UserController.register demoHash demoSign (Some "ann@example.org") (Some "Secret456")
                            (Some "Bob") "s" "U2" t0 [demoUser]
    = ([demoUser], RegisterError 409 "User with this email already exists").
Proof.
  assert (demoUser ∈ [demoUser]) as Hin by left.
  split; [reflexivity|]. split; [reflexivity|]. split; [reflexivity|].
  split; [exact Hin|]. split; [reflexivity|].
  exact (register_rejects_known_email demoHash demoSign [demoUser] "ann@example.org"
           "Secret456" "Bob" "s" "U2" t0 demoUser eq_refl eq_refl eq_refl Hin eq_refl).
Defined.
